(** * Muon ring reconstruction: ctapipe/image/muon/muon_reco_functions.py

    A shallow embedding of the module and the properties of its
    selection gates, ring refinement, configuration table and event loop.

    Numbers.  numpy arrays of dtype float64 and Python floats are IEEE 754
    binary64 values: they are Rocq's primitive [float]s, with the same
    rounding and the same comparisons (every comparison with a NaN is
    false).  astropy quantities are kept in one canonical unit per
    dimension, degrees for angles and metres for lengths.

    Arrays.  The per-pixel arrays of one camera (pix_x, pix_y, image, the
    masks) all have shape (n_pixels,): they are vectors [vec A n] over one
    [n], and numpy's element-wise operators are [vmap] and [vzip_with].
    The result of boolean indexing, [a[mask]], has no fixed length and is a
    list. *)

From Stdlib Require Import Floats ZArith Lia.
From Stdlib Require Uint63.
From stdpp Require Import base option list strings gmap vector.

Set Warnings "-inexact-float".
#[local] Open Scope string_scope.
#[local] Open Scope float_scope.

(** ** Floats *)

Module F.

(** [v ** 2] on a float64 array is numpy's square, [v * v]. *)
Definition sq (v : float) : float := v * v.

(** A Python int (a pixel count) promoted to float64 in a mixed comparison. *)
Definition of_nat (k : nat) : float := of_uint63 (Uint63.of_Z (Z.of_nat k)).

(** [a > b] is [b < a]. *)
Definition gtb (a b : float) : bool := b <? a.

End F.

(** ** numpy on one-dimensional arrays *)

Module np.

(** [np.any(mask)] *)
Definition any {n} (mask : vec bool n) : bool := existsb id (vec_to_list mask).

(** [np.sum(mask)], [mask.sum()], [np.count_nonzero]: the number of true
    entries. *)
Definition count {n} (mask : vec bool n) : nat :=
  length (filter (fun b => b = true) (vec_to_list mask)).

(** [a[mask]]: the entries of [a] where [mask] is true. *)
Definition select {A n} (mask : vec bool n) (a : vec A n) : list A :=
  omap (fun p : bool * A => if p.1 then Some p.2 else None)
       (zip (vec_to_list mask) (vec_to_list a)).

(** [mask_a * mask_b] on boolean arrays: logical and. *)
Definition mul_bool {n} (a b : vec bool n) : vec bool n := vzip_with andb a b.

(** [image * mask]: the boolean is promoted to 1.0 or 0.0. *)
Definition mul_float_bool {n} (a : vec float n) (m : vec bool n) : vec float n :=
  vzip_with (fun q (b : bool) => q * (if b then 1.0 else 0.0)) a m.

End np.

(** ** The per-telescope-type cuts: [generate_muon_cuts_by_telescope_name] *)

(** The value of key ['tail_cuts'] after the final loop of the function. *)
Record TailCuts := {
  picture_thresh : float;
  boundary_thresh : float;
}.

(** One row of [muon_cuts_list_of_dicts], keys as in the source. *)
Record MuonCutRow := {
  row_Name : string;
  row_tail_cuts : float * float;
  row_Impact : float * float;
  row_RingWidth : float * float;
  row_total_pix : float;
  row_min_pix : float;
  row_CamRad : float;
  row_SecRad : float;
  row_SCT : bool;
  row_AngPixW : float;
  row_HoleRad : float;
}.

(** One value of the returned dict [muon_cuts_by_name]. *)
Record MuonCut := {
  Name : string;
  tail_cuts : TailCuts;
  Impact : float * float;          (* in units of mirror radii *)
  RingWidth : float * float;       (* deg *)
  total_pix : float;
  min_pix : float;
  CamRad : float;                  (* deg *)
  SecRad : float;                  (* m *)
  SCT : bool;
  AngPixW : float;                 (* deg *)
  HoleRad : float;                 (* m *)
}.

Module cuts.

Definition names : list string :=
  ["LST_LST_LSTCam"; "MST_MST_NectarCam"; "MST_MST_FlashCam"; "MST_SCT_SCTCam";
   "SST_1M_DigiCam"; "SST_GCT_CHEC"; "SST_ASTRI_ASTRICam"; "SST_ASTRI_CHEC"].
Definition tail_cuts : list (float * float) :=
  [(5, 7); (5, 7); (10, 12); (5, 7);
   (5, 7); (5, 7); (5, 7); (5, 7)].
Definition impact : list (float * float) :=
  [(0.2, 0.9); (0.1, 0.95); (0.2, 0.9); (0.2, 0.9);
   (0.1, 0.95); (0.1, 0.95); (0.1, 0.95); (0.1, 0.95)].
Definition ringwidth : list (float * float) :=
  [(0.04, 0.08); (0.02, 0.1); (0.01, 0.1); (0.02, 0.1);
   (0.01, 0.5); (0.02, 0.2); (0.02, 0.2); (0.02, 0.2)].
Definition total_pix : list float :=
  [1855; 1855; 1764; 11328; 1296; 2048; 2368; 2048].
Definition min_pix : list float :=
  [148; 148; 141; 680; 104; 164; 142; 164].
Definition ang_pixel_width : list float :=
  [0.1; 0.2; 0.18; 0.067; 0.24; 0.2; 0.17; 0.2; 0.163].
Definition hole_rad : list float :=
  [0.308; 0.244; 0.244; 4.3866; 0.160; 0.130; 0.171; 0.171].
Definition cam_rad : list float :=
  [2.26; 3.96; 3.87; 4; 4.45; 2.86; 5.25; 2.86].
Definition sec_rad : list float :=
  [0; 0; 0; 2.7; 0; 1; 1.8; 1.8].
Definition sct : list bool :=
  [false; false; false; true; false; true; true; true].

End cuts.

(** [zip] applied to the unpacked values of the dict [muon_cuts], the
    columns in the insertion order of its keys: Name, tail_cuts, Impact,
    RingWidth, total_pix, min_pix, CamRad, SecRad, SCT, AngPixW, HoleRad.  Python's [zip] stops
    as soon as one of the columns is exhausted. *)
Fixpoint zip_values (c_name : list string)
    (c_tail c_impact c_width : list (float * float))
    (c_total c_min c_cam c_sec : list float) (c_sct : list bool)
    (c_ang c_hole : list float) : list MuonCutRow :=
  match c_name, c_tail, c_impact, c_width, c_total, c_min,
        c_cam, c_sec, c_sct, c_ang, c_hole with
  | v1 :: r1, v2 :: r2, v3 :: r3, v4 :: r4, v5 :: r5, v6 :: r6,
    v7 :: r7, v8 :: r8, v9 :: r9, v10 :: r10, v11 :: r11 =>
      {| row_Name := v1; row_tail_cuts := v2; row_Impact := v3;
         row_RingWidth := v4; row_total_pix := v5; row_min_pix := v6;
         row_CamRad := v7; row_SecRad := v8; row_SCT := v9;
         row_AngPixW := v10; row_HoleRad := v11 |}
      :: zip_values r1 r2 r3 r4 r5 r6 r7 r8 r9 r10 r11
  | _, _, _, _, _, _, _, _, _, _, _ => []
  end.

Definition muon_cuts_list_of_dicts : list MuonCutRow :=
  zip_values cuts.names cuts.tail_cuts cuts.impact cuts.ringwidth
             cuts.total_pix cuts.min_pix cuts.cam_rad cuts.sec_rad cuts.sct
             cuts.ang_pixel_width cuts.hole_rad.

(** The loop that replaces the ['tail_cuts'] tuple of each row by a dict. *)
Definition describe_tail_cuts (mc : MuonCutRow) : MuonCut :=
  {| Name := row_Name mc;
     tail_cuts := {| picture_thresh := (row_tail_cuts mc).1;
                     boundary_thresh := (row_tail_cuts mc).2 |};
     Impact := row_Impact mc; RingWidth := row_RingWidth mc;
     total_pix := row_total_pix mc; min_pix := row_min_pix mc;
     CamRad := row_CamRad mc; SecRad := row_SecRad mc; SCT := row_SCT mc;
     AngPixW := row_AngPixW mc; HoleRad := row_HoleRad mc |}.

(** [{mc['Name']: mc for mc in rows}]: a later row replaces an earlier one
    of the same name. *)
Definition dict_by_name (rows : list MuonCutRow) : gmap string MuonCutRow :=
  foldl (fun d mc => <[row_Name mc := mc]> d) ∅ rows.

Definition generate_muon_cuts_by_telescope_name : gmap string MuonCut :=
  describe_tail_cuts <$> dict_by_name muon_cuts_list_of_dicts.


(** ** Containers *)

(** The container a ring fit returns; the event loop fills in the keys and
    the containment. *)
Module MuonRingParameter.
Record t := {
  ring_center_x : float;           (* deg *)
  ring_center_y : float;           (* deg *)
  ring_radius : float;             (* deg *)
  ring_containment : float;
  tel_id : Z;
  obs_id : Z;
  event_id : Z;
}.
Definition set_keys (telid obs event : Z) (c : t) : t :=
  {| ring_center_x := ring_center_x c; ring_center_y := ring_center_y c;
     ring_radius := ring_radius c; ring_containment := ring_containment c;
     tel_id := telid; obs_id := obs; event_id := event |}.
Definition set_ring_containment (v : float) (c : t) : t :=
  {| ring_center_x := ring_center_x c; ring_center_y := ring_center_y c;
     ring_radius := ring_radius c; ring_containment := v;
     tel_id := tel_id c; obs_id := obs_id c; event_id := event_id c |}.
End MuonRingParameter.

(** The container the intensity fit returns. *)
Module MuonIntensityParameter.
Record t := {
  impact_parameter : float;        (* m *)
  ring_width : float;              (* deg *)
  mask : list bool;
  ring_completeness : float;
  ring_size : nat;
  ring_pix_completeness : float;
  tel_id : Z;
  obs_id : Z;
  event_id : Z;
}.
Definition set_mask (v : list bool) (c : t) : t :=
  {| impact_parameter := impact_parameter c; ring_width := ring_width c;
     mask := v; ring_completeness := ring_completeness c;
     ring_size := ring_size c;
     ring_pix_completeness := ring_pix_completeness c;
     tel_id := tel_id c; obs_id := obs_id c; event_id := event_id c |}.
Definition set_ring_completeness (v : float) (c : t) : t :=
  {| impact_parameter := impact_parameter c; ring_width := ring_width c;
     mask := mask c; ring_completeness := v; ring_size := ring_size c;
     ring_pix_completeness := ring_pix_completeness c;
     tel_id := tel_id c; obs_id := obs_id c; event_id := event_id c |}.
Definition set_ring_size (v : nat) (c : t) : t :=
  {| impact_parameter := impact_parameter c; ring_width := ring_width c;
     mask := mask c; ring_completeness := ring_completeness c;
     ring_size := v; ring_pix_completeness := ring_pix_completeness c;
     tel_id := tel_id c; obs_id := obs_id c; event_id := event_id c |}.
Definition set_ring_pix_completeness (v : float) (c : t) : t :=
  {| impact_parameter := impact_parameter c; ring_width := ring_width c;
     mask := mask c; ring_completeness := ring_completeness c;
     ring_size := ring_size c; ring_pix_completeness := v;
     tel_id := tel_id c; obs_id := obs_id c; event_id := event_id c |}.
Definition set_keys (telid obs event : Z) (c : t) : t :=
  {| impact_parameter := impact_parameter c; ring_width := ring_width c;
     mask := mask c; ring_completeness := ring_completeness c;
     ring_size := ring_size c;
     ring_pix_completeness := ring_pix_completeness c;
     tel_id := telid; obs_id := obs; event_id := event |}.
End MuonIntensityParameter.

(** The arguments of the [MuonLineIntegrate] constructor. *)
Record MuonLineIntegrate := {
  mli_mirror_radius : float;
  hole_radius : float;
  pixel_width : float;
  sct_flag : bool;
  secondary_radius : float;
}.

(** ** The event *)

Record CameraGeometry := {
  n_pixels : nat;
  pix_x : vec float n_pixels;      (* m *)
  pix_y : vec float n_pixels;      (* m *)
}.

Record OpticsDescription := {
  equivalent_focal_length : float; (* m *)
  mirror_radius : float;           (* m *)
}.

Record TelescopeDescription := {
  str : string;                    (* str(teldes), the key of the cuts *)
  optics : OpticsDescription;
  camera : CameraGeometry;
}.

(** What the event holds for one telescope id:
    [event.inst.subarray.tel[telid]] and [event.dl1.tel[telid].image]. *)
Record TelescopeEvent := {
  teldes : TelescopeDescription;
  image : vec float (n_pixels (camera teldes));
}.

Record Event := {
  dl0_obs_id : Z;
  dl0_event_id : Z;
  dl0_tels_with_data : list Z;
  tel : Z -> TelescopeEvent;
}.

(** One element of the list [analyze_muon_event] returns: the dict
    [result], whose keys ['MuonIntensityParams'] and ['muon_found'] are
    present only after [result.update]. *)
Record MuonResult := {
  MuonRingParams : MuonRingParameter.t;
  res_mirror_radius : float;
  MuonIntensityParams : option MuonIntensityParameter.t;
  muon_found : option bool;
}.

(** ** Exceptions and the trace of ring-fit calls *)

Inductive exn :=
  | KeyError (key : string)
  | TypeError (msg : string)
  | NameError (name : string)
  | FitError (msg : string).

Inductive result (A : Type) :=
  | Ok (a : A)
  | Raise (e : exn).
Arguments Ok {A} a.
Arguments Raise {A} e.

(** The ring fitter is a callable the module receives.  Each call is
    recorded by the mask it was given, in call order. *)
Definition trace := list (list bool).

(** A computation reads and extends the trace and returns or raises. *)
Definition M (A : Type) : Type := trace -> result A * trace.

#[global] Instance M_ret : MRet M := fun A a tr => (Ok a, tr).
#[global] Instance M_bind : MBind M := fun A B k m tr =>
  match m tr with
  | (Ok a, tr') => k a tr'
  | (Raise e, tr') => (Raise e, tr')
  end.

Definition raise {A} (e : exn) : M A := fun tr => (Raise e, tr).

(** An external call that may raise and is not traced. *)
Definition lift {A} (r : result A) : M A := fun tr => (r, tr).

(** [d[key]] on a dict. *)
Definition getitem {V} (d : gmap string V) (key : string) : M V :=
  match d !! key with
  | Some v => mret v
  | None => raise (KeyError key)
  end.

(** A name that is bound neither in the function nor at module level. *)
Definition unbound_name {A} (name : string) : M A := raise (NameError name).

(** The binding of a required positional parameter to the argument of a
    call: a call that passes no argument for it raises before the body
    runs. *)
Definition required {A} (fn param : string) (arg : option A) : M A :=
  match arg with
  | Some a => mret a
  | None =>
      raise (TypeError (fn +:+ "() missing 1 required positional argument: '"
                           +:+ param +:+ "'"))
  end.

(** ** Collaborators

    What the module imports and calls without defining it. *)

Definition RingFit : Type :=
  forall n, vec float n -> vec float n -> vec float n -> vec bool n ->
            result MuonRingParameter.t.

Class Collaborators := {
  (** [np.rad2deg] *)
  rad2deg : float -> float;
  (** [SkyCoord(x, y, frame=CameraFrame(focal_length)).transform_to(
      TelescopeFrame())], read as [(delta_az.deg, delta_alt.deg)] *)
  camera_to_telescope_frame :
    forall n, vec float n -> vec float n -> float ->
              vec float n * vec float n;
  (** [tailcuts_clean(geom, image, picture_thresh, boundary_thresh)] *)
  tailcuts_clean :
    forall geom : CameraGeometry,
      vec float (n_pixels geom) -> float -> float -> vec bool (n_pixels geom);
  (** [MuonRingFitter(fit_method)], called as [fit(x, y, image, mask)] *)
  MuonRingFitter : string -> RingFit;
  (** [ctel.fit_muon(center_x, center_y, radius, x, y, image)] *)
  fit_muon :
    MuonLineIntegrate -> float -> float -> float ->
    list float -> list float -> list float -> result MuonIntensityParameter.t;
  (** [ring_containment(radius, cam_rad, center_x, center_y)] *)
  ring_containment : float -> float -> float -> float -> float;
  (** [ring_completeness(x, y, image, radius, center_x, center_y,
      threshold, bins)] *)
  ring_completeness :
    list float -> list float -> list float -> float -> float -> float ->
    float -> nat -> float;
}.

(** Modelled from the spec: [npix_above_threshold] of
    ctapipe.image.muon.features, the count of pixels above the picture
    threshold. *)
Definition npix_above_threshold {n} (pix : vec float n) (thr : float) : nat :=
  np.count (vmap (fun q => F.gtb q thr) pix).

(** Modelled from the spec: [npix_composing_ring] of
    ctapipe.image.muon.features, the count of nonzero pixels. *)
Definition npix_composing_ring {n} (pix : vec float n) : nat :=
  np.count (vmap (fun q => negb (q =? 0)) pix).

(** ** The functions of the module *)

Section muon_reco_functions.
Context `{!Collaborators}.

(** The default of the keyword parameter [fast_but_bad]. *)
Definition fast_but_bad_default : bool := false.

Definition transform_pixel_coords_from_meter_to_deg {n}
    (x y : vec float n) (foc_len : float) (fast_but_bad : bool)
    : vec float n * vec float n :=
  if fast_but_bad then
    let delta_alt := vmap (fun v => rad2deg (v / foc_len)) x in
    let delta_az := vmap (fun v => rad2deg (v / foc_len)) y in
    (delta_az, delta_alt)
  else
    let pixel_coords_in_telescope_frame :=
      camera_to_telescope_frame n x y foc_len in
    let delta_az := pixel_coords_in_telescope_frame.1 in
    let delta_alt := pixel_coords_in_telescope_frame.2 in
    (delta_az, delta_alt).

Definition calc_nom_dist (ring_fit : MuonRingParameter.t) : float :=
  sqrt (F.sq (MuonRingParameter.ring_center_x ring_fit) +
        F.sq (MuonRingParameter.ring_center_y ring_fit)).

(** The default of the keyword parameter [parameter]. *)
Definition parameter_default : float := 0.4.

Definition calc_dist_and_ring_dist {n} (x y : vec float n)
    (ring_fit : MuonRingParameter.t) (parameter : float)
    : vec float n * vec float n * vec bool n :=
  let dist :=
    vzip_with
      (fun xi yi =>
         sqrt (F.sq (xi - MuonRingParameter.ring_center_x ring_fit) +
               F.sq (yi - MuonRingParameter.ring_center_y ring_fit)))
      x y in
  let ring_dist :=
    vmap (fun d => abs (d - MuonRingParameter.ring_radius ring_fit)) dist in
  let dist_mask :=
    vmap (fun rd => rd <? MuonRingParameter.ring_radius ring_fit * parameter)
         ring_dist in
  (dist, ring_dist, dist_mask).

Definition is_ring_good {n} (cleaned_image : vec float n)
    (ring_fit : MuonRingParameter.t) (muon_cut : MuonCut) : bool :=
  let number_of_pixels_above_picture_thresh :=
    npix_above_threshold cleaned_image
                         (picture_thresh (tail_cuts muon_cut)) in
  let is_enough_pixels_over_picture_thresh :=
    F.gtb (F.of_nat number_of_pixels_above_picture_thresh)
          (0.1 * min_pix muon_cut) in
  let number_of_non_zero_pixels := npix_composing_ring cleaned_image in
  let is_enough_pixels_in_cleaned_image :=
    F.gtb (F.of_nat number_of_non_zero_pixels) (min_pix muon_cut) in
  let is_ring_center_inside_camera :=
    calc_nom_dist ring_fit <? CamRad muon_cut in
  is_enough_pixels_over_picture_thresh &&
  is_enough_pixels_in_cleaned_image &&
  is_ring_center_inside_camera &&
  F.gtb (MuonRingParameter.ring_radius ring_fit) 1 &&
  (MuonRingParameter.ring_radius ring_fit <? 1.5).

(** A call of the ring fitter: the mask goes to the trace. *)
Definition call_fit {n} (muon_ring_fit : RingFit)
    (x y image : vec float n) (mask : vec bool n)
    : M MuonRingParameter.t :=
  fun tr => (muon_ring_fit n x y image mask, (tr ++ [vec_to_list mask])%list).

Definition do_multi_ring_fit {n} (muon_ring_fit : RingFit)
    (x y image : vec float n) (clean_mask : vec bool n)
    : M (MuonRingParameter.t * vec bool n) :=
  (* 1st fit *)
  ring_fit ← call_fit muon_ring_fit x y image clean_mask;
  let '(dist, ring_dist, dist_mask) :=
    calc_dist_and_ring_dist x y ring_fit parameter_default in
  let mask := np.mul_bool clean_mask dist_mask in
  (* 2nd fit *)
  ring_fit ← call_fit muon_ring_fit x y image mask;
  let '(dist, ring_dist, dist_mask) :=
    calc_dist_and_ring_dist x y ring_fit parameter_default in
  let mask := np.mul_bool mask dist_mask in
  (* 3rd fit *)
  ring_fit ← call_fit muon_ring_fit x y image mask;
  let '(dist, ring_dist, dist_mask) :=
    calc_dist_and_ring_dist x y ring_fit parameter_default in
  let mask := np.mul_bool mask dist_mask in
  mret (ring_fit, mask).

(** The parameters are [x, y, image, mask, ring_fit, ctel], all required
    and positional; [ctel] is [None] for a call that passes five
    arguments.  The body reads [ring_dist] and [tailcuts], which are
    neither parameters nor assigned in the body nor names of the module. *)
Definition calc_muon_intensity_parameters {n}
    (x y image : vec float n) (mask : vec bool n)
    (ring_fit : MuonRingParameter.t) (ctel : option MuonLineIntegrate)
    : M MuonIntensityParameter.t :=
  ctel ← required "calc_muon_intensity_parameters" "ctel" ctel;
  muonintensityoutput ←
    lift (fit_muon ctel
            (MuonRingParameter.ring_center_x ring_fit)
            (MuonRingParameter.ring_center_y ring_fit)
            (MuonRingParameter.ring_radius ring_fit)
            (np.select mask x) (np.select mask y) (np.select mask image));
  let muonintensityoutput :=
    MuonIntensityParameter.set_mask (vec_to_list mask) muonintensityoutput in
  let muonintensityoutput :=
    MuonIntensityParameter.set_ring_completeness
      (ring_completeness
         (np.select mask x) (np.select mask y) (np.select mask image)
         (MuonRingParameter.ring_radius ring_fit)
         (MuonRingParameter.ring_center_x ring_fit)
         (MuonRingParameter.ring_center_y ring_fit)
         30 30%nat)
      muonintensityoutput in
  let muonintensityoutput :=
    MuonIntensityParameter.set_ring_size (np.count mask)
                                         muonintensityoutput in
  ring_dist ← unbound_name (A := vec float n) "ring_dist";
  let dist_ringwidth_mask :=
    vmap (fun rd =>
            rd <? MuonIntensityParameter.ring_width muonintensityoutput)
         ring_dist in
  let pix_ringwidth_im := np.mul_float_bool image dist_ringwidth_mask in
  tailcuts ← unbound_name (A := TailCuts) "tailcuts";
  let muonintensityoutput :=
    MuonIntensityParameter.set_ring_pix_completeness
      (F.of_nat
         (length
            (filter (fun q => F.gtb q (picture_thresh tailcuts) = true)
                    (np.select dist_ringwidth_mask pix_ringwidth_im)))
       / F.of_nat (np.count dist_ringwidth_mask))
      muonintensityoutput in
  mret muonintensityoutput.

(** The list [conditions] of [analyze_muon_event]. *)
Definition conditions (muonintensityoutput : MuonIntensityParameter.t)
    (muon_cut : MuonCut) (mirror_radius : float) : list bool :=
  [ MuonIntensityParameter.impact_parameter muonintensityoutput
      <? (Impact muon_cut).2 * mirror_radius;
    F.gtb (MuonIntensityParameter.impact_parameter muonintensityoutput)
          ((Impact muon_cut).1 * mirror_radius);
    MuonIntensityParameter.ring_width muonintensityoutput
      <? (RingWidth muon_cut).2;
    F.gtb (MuonIntensityParameter.ring_width muonintensityoutput)
          (RingWidth muon_cut).1 ].

(** Python's [all]. *)
Definition all (l : list bool) : bool := forallb id l.

(** The body of the loop over [event.dl0.tels_with_data]: [None] is
    [continue], [Some result] is [output.append(result)]. *)
Definition analyze_telescope (muon_cuts_by_name : gmap string MuonCut)
    (event : Event) (telid : Z) : M (option MuonResult) :=
  let image := image (tel event telid) in
  let teldes := teldes (tel event telid) in
  let foc_len := equivalent_focal_length (optics teldes) in
  let geom := camera teldes in
  let optics := optics teldes in
  let mirror_radius := mirror_radius optics in
  let '(x, y) := (pix_x geom, pix_y geom) in
  muon_cut ← getitem muon_cuts_by_name (str teldes);
  let tailcuts := tail_cuts muon_cut in
  let clean_mask :=
    tailcuts_clean geom image
                   (picture_thresh tailcuts) (boundary_thresh tailcuts) in
  let '(x, y) := transform_pixel_coords_from_meter_to_deg x y foc_len true in
  let muon_ring_fit := MuonRingFitter "chaudhuri_kundu" in
  let ctel :=
    {| mli_mirror_radius := mirror_radius;
       hole_radius := HoleRad muon_cut;
       pixel_width := AngPixW muon_cut;
       sct_flag := SCT muon_cut;
       secondary_radius := SecRad muon_cut |} in
  if negb (np.any clean_mask) then mret None
  else
    '(ring_fit, mask) ← do_multi_ring_fit muon_ring_fit x y image clean_mask;
    let ring_fit :=
      MuonRingParameter.set_keys telid (dl0_obs_id event)
                                 (dl0_event_id event) ring_fit in
    let ring_fit :=
      MuonRingParameter.set_ring_containment
        (ring_containment
           (MuonRingParameter.ring_radius ring_fit) (CamRad muon_cut)
           (MuonRingParameter.ring_center_x ring_fit)
           (MuonRingParameter.ring_center_y ring_fit))
        ring_fit in
    let result :=
      {| MuonRingParams := ring_fit; res_mirror_radius := mirror_radius;
         MuonIntensityParams := None; muon_found := None |} in
    if is_ring_good (np.mul_float_bool image mask) ring_fit muon_cut then
      muonintensityoutput ←
        calc_muon_intensity_parameters x y image mask ring_fit None;
      let muonintensityoutput :=
        MuonIntensityParameter.set_keys telid (dl0_obs_id event)
                                        (dl0_event_id event)
                                        muonintensityoutput in
      let conditions := conditions muonintensityoutput muon_cut mirror_radius in
      mret (Some {| MuonRingParams := ring_fit;
                    res_mirror_radius := mirror_radius;
                    MuonIntensityParams := Some muonintensityoutput;
                    muon_found := Some (all conditions) |})
    else mret (Some result).

(** The loop of [analyze_muon_event] over the remaining telescope ids. *)
Fixpoint analyze_loop (muon_cuts_by_name : gmap string MuonCut)
    (event : Event) (tels : list Z) (output : list MuonResult)
    : M (list MuonResult) :=
  match tels with
  | [] => mret output
  | telid :: tels =>
      r ← analyze_telescope muon_cuts_by_name event telid;
      analyze_loop muon_cuts_by_name event tels
                   (match r with
                    | Some result => (output ++ [result])%list
                    | None => output
                    end)
  end.

Definition analyze_muon_event (event : Event) : M (list MuonResult) :=
  let muon_cuts_by_name := generate_muon_cuts_by_telescope_name in
  analyze_loop muon_cuts_by_name event (dl0_tels_with_data event) [].

End muon_reco_functions.

(** ** Stand-ins for the collaborators and sample inputs

    The module is generic in its collaborators.  The closed examples below
    run it with the simple stand-ins of this section. *)

Module sample.

Definition pi : float := 3.141592653589793.

(** numpy computes [rad2deg(v)] as [v * (180 / pi)]. *)
Definition np_rad2deg (v : float) : float := v * (180 / pi).

(** Stand-in for the exact projection: the same linear scale. *)
Definition linear_frame (n : nat) (x y : vec float n)
    (foc_len : float) : vec float n * vec float n :=
  (vmap (fun v => np_rad2deg (v / foc_len)) y,
   vmap (fun v => np_rad2deg (v / foc_len)) x).

(** Stand-in for the cleaning: a pixel survives when its charge reaches
    the picture threshold. *)
Definition threshold_clean (geom : CameraGeometry)
    (image : vec float (n_pixels geom)) (picture boundary : float)
    : vec bool (n_pixels geom) :=
  vmap (fun q => picture <=? q) image.

Definition sum (l : list float) : float := foldl PrimFloat.add 0 l.

(** Stand-in for the ring fitter: the centre is the centroid of the masked
    pixels, the radius their mean distance to it. *)
Definition centroid_fit : RingFit := fun n x y image mask =>
  let xs := np.select mask x in
  let ys := np.select mask y in
  let k := F.of_nat (length xs) in
  let cx := sum xs / k in
  let cy := sum ys / k in
  let r :=
    sum (zip_with (fun a b => sqrt (F.sq (a - cx) + F.sq (b - cy))) xs ys)
    / k in
  Ok {| MuonRingParameter.ring_center_x := cx;
        MuonRingParameter.ring_center_y := cy;
        MuonRingParameter.ring_radius := r;
        MuonRingParameter.ring_containment := 0;
        MuonRingParameter.tel_id := 0;
        MuonRingParameter.obs_id := 0;
        MuonRingParameter.event_id := 0 |}.

(** Stand-in for the intensity fit: a fixed answer. *)
Definition fixed_fit_muon (ctel : MuonLineIntegrate) (cx cy r : float)
    (x y image : list float) : result MuonIntensityParameter.t :=
  Ok {| MuonIntensityParameter.impact_parameter :=
          0.5 * mli_mirror_radius ctel;
        MuonIntensityParameter.ring_width := 0.05;
        MuonIntensityParameter.mask := [];
        MuonIntensityParameter.ring_completeness := 0;
        MuonIntensityParameter.ring_size := 0;
        MuonIntensityParameter.ring_pix_completeness := 0;
        MuonIntensityParameter.tel_id := 0;
        MuonIntensityParameter.obs_id := 0;
        MuonIntensityParameter.event_id := 0 |}.

Definition collaborators : Collaborators := {|
  rad2deg := np_rad2deg;
  camera_to_telescope_frame := linear_frame;
  tailcuts_clean := threshold_clean;
  MuonRingFitter := fun _ => centroid_fit;
  fit_muon := fixed_fit_muon;
  ring_containment := fun _ _ _ _ => 1;
  ring_completeness := fun _ _ _ _ _ _ _ _ => 1;
|}.

(** *** A ring of 200 pixels *)

(** The point of the circle of radius [R] with rational parameter [t]. *)
Definition ring_point (R t : float) : float * float :=
  (R * (1 - t * t) / (1 + t * t), R * (2 * t) / (1 + t * t)).

(** [2 * N] pixels on the circle of radius [R] (m) around the camera
    centre. *)
Definition ring_pixels (R : float) (N : nat) : list (float * float) :=
  flat_map
    (fun j =>
       let t := (F.of_nat (2 * j + 1) - F.of_nat N) / F.of_nat N in
       let p := ring_point R t in
       [p; (- p.1, p.2)])
    (seq 0 N).

Definition camera_of (pixels : list (float * float)) : CameraGeometry :=
  {| n_pixels := length pixels;
     pix_x := vmap fst (list_to_vec pixels);
     pix_y := vmap snd (list_to_vec pixels) |}.

(** An LST with focal length 28 m: a radius of 0.5864 m is 1.2 deg. *)
Definition ring_camera : CameraGeometry := camera_of (ring_pixels 0.5864 100).

Definition telescope (name : string) (geom : CameraGeometry)
    : TelescopeDescription :=
  {| str := name;
     optics := {| equivalent_focal_length := 28; mirror_radius := 11.5 |};
     camera := geom |}.

(** Every pixel of the camera holds the charge [q]. *)
Definition flat_image (name : string) (geom : CameraGeometry) (q : float)
    : TelescopeEvent :=
  {| teldes := telescope name geom;
     image := vmap (fun _ => q) (pix_x geom) |}.

(** One LST, every ring pixel at 10 photoelectrons. *)
Definition ring_event : Event :=
  {| dl0_obs_id := 1; dl0_event_id := 1; dl0_tels_with_data := [1%Z];
     tel := fun _ => flat_image "LST_LST_LSTCam" ring_camera 10 |}.

(** *** A camera of six pixels, in degrees *)

Definition six_x : vec float 6 := [# 1; -4; -5; 4; 5; 0].
Definition six_y : vec float 6 := [# -5; 4; -5; 4; 2; 6].
Definition six_image : vec float 6 := [# 10; 10; 10; 10; 10; 10].
Definition six_clean : vec bool 6 := [# true; true; true; true; true; true].

(** *** Events of small cameras *)

Definition small_camera : CameraGeometry :=
  camera_of [(0.5, 0); (0, 0.5); (-0.5, 0); (0, -0.5)].

(** Telescope 1 is an LST with signal, telescope 2 has a type the table
    does not know, telescope 3 is an LST with an empty image. *)
Definition small_tel (telid : Z) : TelescopeEvent :=
  if (telid =? 1)%Z then flat_image "LST_LST_LSTCam" small_camera 10
  else if (telid =? 2)%Z then flat_image "LST_LST_Unknown" small_camera 10
  else flat_image "LST_LST_LSTCam" small_camera 0.

Definition small_event (tels : list Z) : Event :=
  {| dl0_obs_id := 1; dl0_event_id := 7; dl0_tels_with_data := tels;
     tel := small_tel |}.

(** *** Inputs of the gates *)

(** The entry of the table for the LST. *)
Definition lst_cut : MuonCut :=
  {| Name := "LST_LST_LSTCam";
     tail_cuts := {| picture_thresh := 5; boundary_thresh := 7 |};
     Impact := (0.2, 0.9); RingWidth := (0.04, 0.08);
     total_pix := 1855; min_pix := 148; CamRad := 2.26; SecRad := 0;
     SCT := false; AngPixW := 0.1; HoleRad := 0.308 |}.

(** A ring around the camera centre with radius [r] (deg). *)
Definition centred_ring (r : float) : MuonRingParameter.t :=
  {| MuonRingParameter.ring_center_x := 0;
     MuonRingParameter.ring_center_y := 0;
     MuonRingParameter.ring_radius := r;
     MuonRingParameter.ring_containment := 1;
     MuonRingParameter.tel_id := 1;
     MuonRingParameter.obs_id := 1;
     MuonRingParameter.event_id := 1 |}.

(** 200 pixels at 10 photoelectrons. *)
Definition ring_image : vec float 200 := vmap (fun _ => 10) (pix_x ring_camera).

(** An intensity fit with impact parameter [ip] (m) and ring width [w]
    (deg). *)
Definition intensity (ip w : float) : MuonIntensityParameter.t :=
  {| MuonIntensityParameter.impact_parameter := ip;
     MuonIntensityParameter.ring_width := w;
     MuonIntensityParameter.mask := [];
     MuonIntensityParameter.ring_completeness := 1;
     MuonIntensityParameter.ring_size := 200;
     MuonIntensityParameter.ring_pix_completeness := 1;
     MuonIntensityParameter.tel_id := 1;
     MuonIntensityParameter.obs_id := 1;
     MuonIntensityParameter.event_id := 1 |}.

(** *** Pixels in metres, one per coordinate array *)

Definition one_x : vec float 1 := [# 0.28].
Definition one_y : vec float 1 := [# 0.56].

(** *** More fitters and three pixels on a line *)

(** Stand-in for a fitter whose answer does not depend on the mask. *)
Definition constant_fit (ring_fit : MuonRingParameter.t) : RingFit :=
  fun _ _ _ _ _ => Ok ring_fit.

(** Stand-in for a fitter that refuses a mask of fewer than three
    pixels. *)
Definition strict_centroid_fit : RingFit := fun n x y image mask =>
  if Nat.ltb (np.count mask) 3
  then Raise (FitError "fewer than three pixels")
  else centroid_fit n x y image mask.

Definition three_x : vec float 3 := [# 0; 1; 10].
Definition three_y : vec float 3 := [# 0; 0; 0].
Definition three_image : vec float 3 := [# 10; 10; 10].
Definition three_clean : vec bool 3 := [# true; true; true].

(** *** A ring off the camera centre *)

(** Four pixels at 0.1 m from the point x = 0.56 m, y = 0.28 m. *)
Definition offset_camera : CameraGeometry :=
  camera_of [(0.66, 0.28); (0.46, 0.28); (0.56, 0.38); (0.56, 0.18)].

(** One LST with the four pixels at 10 photoelectrons. *)
Definition offset_event : Event :=
  {| dl0_obs_id := 1; dl0_event_id := 1; dl0_tels_with_data := [1%Z];
     tel := fun _ => flat_image "LST_LST_LSTCam" offset_camera 10 |}.

End sample.

(** ** Notions used in the statements *)

(** The third component of [calc_dist_and_ring_dist] at the default
    [parameter]. *)
Definition dist_mask {n} (x y : vec float n) (ring_fit : MuonRingParameter.t)
    : vec bool n :=
  (calc_dist_and_ring_dist x y ring_fit parameter_default).2.

(** The inlier criterion of one pixel, written out. *)
Definition inlier (xi yi : float) (ring_fit : MuonRingParameter.t) : bool :=
  abs (sqrt ((xi - MuonRingParameter.ring_center_x ring_fit)
             * (xi - MuonRingParameter.ring_center_x ring_fit)
             + (yi - MuonRingParameter.ring_center_y ring_fit)
               * (yi - MuonRingParameter.ring_center_y ring_fit))
       - MuonRingParameter.ring_radius ring_fit)
  <? MuonRingParameter.ring_radius ring_fit * 0.4.

(** Every pixel of [a] is a pixel of [b]. *)
Definition mask_subset {n} (a b : vec bool n) : Prop :=
  forall i : fin n, a !!! i = true -> b !!! i = true.

(** One tightening step: the mask of the fit and the criterion of its
    result, multiplied. *)
Definition tighten {n} (x y : vec float n) (ring_fit : MuonRingParameter.t)
    (mask : vec bool n) : vec bool n :=
  np.mul_bool mask (dist_mask x y ring_fit).

(** Each mask of the list is a subset of the one before it, the first one
    of [prev]. *)
Fixpoint narrowing {n} (prev : vec bool n) (masks : list (vec bool n)) : Prop :=
  match masks with
  | [] => True
  | m :: masks => mask_subset m prev /\ narrowing m masks
  end.

(** The collaborators [C] with another exact projection. *)
Definition with_exact_projection (C : Collaborators)
    (exact : forall n, vec float n -> vec float n -> float ->
                       vec float n * vec float n) : Collaborators :=
  {| rad2deg := @rad2deg C;
     camera_to_telescope_frame := exact;
     tailcuts_clean := @tailcuts_clean C;
     MuonRingFitter := @MuonRingFitter C;
     fit_muon := @fit_muon C;
     ring_containment := @ring_containment C;
     ring_completeness := @ring_completeness C |}.

(** The values the loop body of [analyze_muon_event] computes for one
    telescope, by the names they have there. *)
Section loop_body_values.
Context `{!Collaborators} (event : Event) (telid : Z).

Abbreviation tel_geom := (camera (teldes (tel event telid))).

Definition tel_image : vec float (n_pixels tel_geom) :=
  image (tel event telid).

Definition tel_clean_mask (muon_cut : MuonCut) : vec bool (n_pixels tel_geom) :=
  tailcuts_clean tel_geom tel_image
                 (picture_thresh (tail_cuts muon_cut))
                 (boundary_thresh (tail_cuts muon_cut)).

(** [x, y] after the projection. *)
Definition tel_xy : vec float (n_pixels tel_geom) * vec float (n_pixels tel_geom) :=
  transform_pixel_coords_from_meter_to_deg
    (pix_x tel_geom) (pix_y tel_geom)
    (equivalent_focal_length (optics (teldes (tel event telid)))) true.

(** [ring_fit] after the keys and the containment are set. *)
Definition tel_ring_fit (muon_cut : MuonCut) (ring_fit : MuonRingParameter.t)
    : MuonRingParameter.t :=
  MuonRingParameter.set_ring_containment
    (ring_containment
       (MuonRingParameter.ring_radius ring_fit) (CamRad muon_cut)
       (MuonRingParameter.ring_center_x ring_fit)
       (MuonRingParameter.ring_center_y ring_fit))
    (MuonRingParameter.set_keys telid (dl0_obs_id event) (dl0_event_id event)
                                ring_fit).

(** The record of a telescope whose ring is not good. *)
Definition ring_only_result (muon_cut : MuonCut)
    (ring_fit : MuonRingParameter.t) : MuonResult :=
  {| MuonRingParams := tel_ring_fit muon_cut ring_fit;
     res_mirror_radius := mirror_radius (optics (teldes (tel event telid)));
     MuonIntensityParams := None;
     muon_found := None |}.

End loop_body_values.

(** The message of the exception of a call that leaves [ctel] out. *)
Definition missing_ctel : string :=
  "calc_muon_intensity_parameters() missing 1 required positional argument: 'ctel'".

(** [result] is the record the loop body appends for telescope [telid]:
    the type of the telescope is in the table, its cleaning mask is not
    empty, the refinement has returned and its ring has failed
    [is_ring_good]. *)
Definition rejected_ring_record `{!Collaborators}
    (muon_cuts_by_name : gmap string MuonCut) (event : Event) (telid : Z)
    (result : MuonResult) : Prop :=
  exists muon_cut ring_fit mask tr tr',
    muon_cuts_by_name !! str (teldes (tel event telid)) = Some muon_cut
    /\ np.any (tel_clean_mask event telid muon_cut) = true
    /\ do_multi_ring_fit (MuonRingFitter "chaudhuri_kundu")
         (tel_xy event telid).1 (tel_xy event telid).2 (tel_image event telid)
         (tel_clean_mask event telid muon_cut) tr
       = (Ok (ring_fit, mask), tr')
    /\ is_ring_good (np.mul_float_bool (tel_image event telid) mask)
                    (tel_ring_fit event telid muon_cut ring_fit) muon_cut
       = false
    /\ result = ring_only_result event telid muon_cut ring_fit.

(** What the loop body appends for telescope [telid] when it is run on its
    own, from an empty trace. *)
Definition body_record `{!Collaborators}
    (muon_cuts_by_name : gmap string MuonCut) (event : Event) (telid : Z)
    : option MuonResult :=
  match (analyze_telescope muon_cuts_by_name event telid []).1 with
  | Ok r => r
  | Raise _ => None
  end.

(** The exception of the loop body for telescope [telid] when it is run on
    its own. *)
Definition body_exception `{!Collaborators}
    (muon_cuts_by_name : gmap string MuonCut) (event : Event) (telid : Z)
    : option exn :=
  match (analyze_telescope muon_cuts_by_name event telid []).1 with
  | Ok _ => None
  | Raise e => Some e
  end.

(** The exception of the first telescope of the list whose loop body
    raises. *)
Definition first_exception `{!Collaborators}
    (muon_cuts_by_name : gmap string MuonCut) (event : Event) (tels : list Z)
    : option exn :=
  head (omap (body_exception muon_cuts_by_name event) tels).

(** * Properties *)

(** ** The table of cuts *)

Example LST_cut :
  generate_muon_cuts_by_telescope_name !! "LST_LST_LSTCam"
  = Some sample.lst_cut.
Proof. vm_compute. reflexivity. Qed.

(** The zip has as many rows as the first column that runs out. *)
Lemma zip_values_length c_name c_tail c_impact c_width c_total c_min
    c_cam c_sec c_sct c_ang c_hole :
  length (zip_values c_name c_tail c_impact c_width c_total c_min
                     c_cam c_sec c_sct c_ang c_hole)
  = foldr Nat.min (length c_name)
          [length c_tail; length c_impact; length c_width; length c_total;
           length c_min; length c_cam; length c_sec; length c_sct;
           length c_ang; length c_hole].
Proof.
  revert c_tail c_impact c_width c_total c_min c_cam c_sec c_sct c_ang c_hole.
  induction c_name as [|v1 r1 IH]; intros c_tail c_impact c_width c_total
    c_min c_cam c_sec c_sct c_ang c_hole.
  { cbn [zip_values length foldr]. rewrite !Nat.min_0_r. reflexivity. }
  destruct c_tail as [|v2 r2]; [reflexivity|].
  destruct c_impact as [|v3 r3];
    [cbn [zip_values length foldr]; rewrite ?Nat.min_0_l, ?Nat.min_0_r;
     reflexivity|].
  destruct c_width as [|v4 r4];
    [cbn [zip_values length foldr]; rewrite ?Nat.min_0_l, ?Nat.min_0_r;
     reflexivity|].
  destruct c_total as [|v5 r5];
    [cbn [zip_values length foldr]; rewrite ?Nat.min_0_l, ?Nat.min_0_r;
     reflexivity|].
  destruct c_min as [|v6 r6];
    [cbn [zip_values length foldr]; rewrite ?Nat.min_0_l, ?Nat.min_0_r;
     reflexivity|].
  destruct c_cam as [|v7 r7];
    [cbn [zip_values length foldr]; rewrite ?Nat.min_0_l, ?Nat.min_0_r;
     reflexivity|].
  destruct c_sec as [|v8 r8];
    [cbn [zip_values length foldr]; rewrite ?Nat.min_0_l, ?Nat.min_0_r;
     reflexivity|].
  destruct c_sct as [|v9 r9];
    [cbn [zip_values length foldr]; rewrite ?Nat.min_0_l, ?Nat.min_0_r;
     reflexivity|].
  destruct c_ang as [|v10 r10];
    [cbn [zip_values length foldr]; rewrite ?Nat.min_0_l, ?Nat.min_0_r;
     reflexivity|].
  destruct c_hole as [|v11 r11];
    [cbn [zip_values length foldr]; rewrite ?Nat.min_0_l, ?Nat.min_0_r;
     reflexivity|].
  cbn [zip_values length foldr]. rewrite IH. cbn [foldr].
  rewrite <- !Nat.succ_min_distr. reflexivity.
Qed.

Lemma muon_cuts_dom :
  dom generate_muon_cuts_by_telescope_name = list_to_set cuts.names.
Proof.
  unfold generate_muon_cuts_by_telescope_name. rewrite dom_fmap_L.
  unfold dict_by_name, muon_cuts_list_of_dicts. simpl.
  rewrite !dom_insert_L, dom_empty_L. set_solver.
Qed.

(** The rows of the table, one per name. *)
Lemma muon_cuts_lookup_inv (name : string) (mc : MuonCut) :
  generate_muon_cuts_by_telescope_name !! name = Some mc ->
  exists i, cuts.names !! i = Some name /\
            describe_tail_cuts <$> muon_cuts_list_of_dicts !! i = Some mc.
Proof.
  intros Hl. pose proof (elem_of_dom_2 _ _ _ Hl) as Hd.
  rewrite muon_cuts_dom in Hd. apply elem_of_list_to_set in Hd.
  apply list_elem_of_lookup in Hd as [i Hi]. exists i. split; [exact Hi|].
  do 8 (destruct i as [|i];
        [ injection Hi as <-; rewrite <- Hl; vm_compute; reflexivity | ]).
  discriminate.
Qed.

(** C10: the table has exactly the eight names as keys; the entry of the
    i-th name holds the i-th element of every column; the column of pixel
    widths has nine elements, and its ninth, 0.163 deg, is the pixel width
    of no entry, because the zip stops with the shortest column. *)
Theorem muon_cuts_by_name_zip :
  dom generate_muon_cuts_by_telescope_name = list_to_set cuts.names
  /\ length cuts.names = 8%nat
  /\ size generate_muon_cuts_by_telescope_name = 8%nat
  /\ (forall i name, cuts.names !! i = Some name ->
        exists mc,
          generate_muon_cuts_by_telescope_name !! name = Some mc
          /\ Name mc = name
          /\ cuts.tail_cuts !! i =
               Some (picture_thresh (tail_cuts mc),
                     boundary_thresh (tail_cuts mc))
          /\ cuts.impact !! i = Some (Impact mc)
          /\ cuts.ringwidth !! i = Some (RingWidth mc)
          /\ cuts.total_pix !! i = Some (total_pix mc)
          /\ cuts.min_pix !! i = Some (min_pix mc)
          /\ cuts.cam_rad !! i = Some (CamRad mc)
          /\ cuts.sec_rad !! i = Some (SecRad mc)
          /\ cuts.sct !! i = Some (SCT mc)
          /\ cuts.ang_pixel_width !! i = Some (AngPixW mc)
          /\ cuts.hole_rad !! i = Some (HoleRad mc))
  /\ length cuts.ang_pixel_width = 9%nat
  /\ cuts.ang_pixel_width !! 8%nat = Some 0.163
  /\ (forall name mc,
        generate_muon_cuts_by_telescope_name !! name = Some mc ->
        AngPixW mc <> 0.163).
Proof.
  split; [exact muon_cuts_dom|].
  split; [reflexivity|].
  split.
  { rewrite <- size_dom, muon_cuts_dom. vm_compute. reflexivity. }
  split.
  { intros i name Hi.
    do 8 (destruct i as [|i];
          [ injection Hi as <-; eexists; split; [vm_compute; reflexivity|];
            repeat split | ]).
    discriminate. }
  split; [reflexivity|]. split; [reflexivity|].
  intros name mc Hl. apply muon_cuts_lookup_inv in Hl as (i & _ & Hi).
  do 8 (destruct i as [|i];
        [ injection Hi as <-; intros Heq;
          apply (f_equal (fun v => v =? 0.163)) in Heq;
          vm_compute in Heq; discriminate | ]).
  discriminate.
Qed.

(** The entry of the first name, read off the theorem. *)
Lemma muon_cuts_by_name_zip_LST :
  exists mc,
    generate_muon_cuts_by_telescope_name !! "LST_LST_LSTCam" = Some mc
    /\ cuts.ang_pixel_width !! 0%nat = Some (AngPixW mc)
    /\ AngPixW mc <> 0.163.
Proof.
  destruct muon_cuts_by_name_zip as (_ & _ & _ & Hrow & _ & _ & Hdrop).
  destruct (Hrow 0%nat "LST_LST_LSTCam" eq_refl)
    as (mc & Hl & _ & _ & _ & _ & _ & _ & _ & _ & _ & Hw & _).
  exists mc. split; [exact Hl|]. split; [exact Hw|].
  exact (Hdrop _ _ Hl).
Defined.

(** ** Floats *)

(** The order of [SFcompare] is antisymmetric. *)
Lemma SFcompare_antisym (a b : spec_float) (c : comparison) :
  SFcompare a b = Some c -> SFcompare b a = Some (CompOpp c).
Proof.
  destruct a as [sa|sa| |sa ma ea], b as [sb|sb| |sb mb eb]; simpl;
    try discriminate;
    try (intros [= <-]; first [ destruct sa, sb; reflexivity
                              | destruct sa; reflexivity
                              | destruct sb; reflexivity
                              | reflexivity ]).
  intros [= <-]. f_equal.
  rewrite (Z.compare_antisym ea eb).
  replace (Pos.compare_cont Eq mb ma)
    with (CompOpp (Pos.compare_cont Eq ma mb))
    by (rewrite Pos.compare_cont_antisym; reflexivity).
  destruct sa, sb; try reflexivity;
    destruct (ea ?= eb)%Z; simpl; try reflexivity;
    destruct (Pos.compare_cont Eq ma mb); reflexivity.
Qed.

(** [a <= b] excludes [b < a] (on floats, where NaN compares false). *)
Lemma leb_not_gtb (a b : float) : (a <=? b) = true -> (b <? a) = false.
Proof.
  rewrite FloatAxioms.leb_spec, FloatAxioms.ltb_spec. unfold SFleb, SFltb.
  destruct (SFcompare (Prim2SF a) (Prim2SF b)) as [c|] eqn:E; [|discriminate].
  rewrite (SFcompare_antisym _ _ _ E).
  destruct c; simpl; congruence.
Qed.

Lemma ltb_not_gtb (a b : float) : (a <? b) = true -> (b <? a) = false.
Proof.
  rewrite !FloatAxioms.ltb_spec. unfold SFltb.
  destruct (SFcompare (Prim2SF a) (Prim2SF b)) as [c|] eqn:E; [|discriminate].
  rewrite (SFcompare_antisym _ _ _ E).
  destruct c; simpl; congruence.
Qed.

Lemma ltb_irrefl (a : float) : (a <? a) = false.
Proof.
  destruct (a <? a) eqn:E; [|reflexivity].
  rewrite (ltb_not_gtb a a E) in E. discriminate.
Qed.

(** ** Ring refinement *)

Section refinement.
Context {n : nat} (muon_ring_fit : RingFit) (x y image : vec float n).

Lemma dist_mask_lookup (ring_fit : MuonRingParameter.t) (i : fin n) :
  dist_mask x y ring_fit !!! i = inlier (x !!! i) (y !!! i) ring_fit.
Proof.
  unfold dist_mask, calc_dist_and_ring_dist, inlier, F.sq, parameter_default.
  simpl. rewrite !vlookup_map, vlookup_zip_with. reflexivity.
Qed.

Lemma tighten_lookup (ring_fit : MuonRingParameter.t) (mask : vec bool n)
    (i : fin n) :
  tighten x y ring_fit mask !!! i
  = mask !!! i && inlier (x !!! i) (y !!! i) ring_fit.
Proof.
  unfold tighten, np.mul_bool.
  rewrite vlookup_zip_with, dist_mask_lookup. reflexivity.
Qed.

Lemma tighten_subset (ring_fit : MuonRingParameter.t) (mask : vec bool n) :
  mask_subset (tighten x y ring_fit mask) mask.
Proof.
  intros i. rewrite tighten_lookup. intros H.
  apply andb_true_iff in H. tauto.
Qed.

Lemma mask_subset_trans (a b c : vec bool n) :
  mask_subset a b -> mask_subset b c -> mask_subset a c.
Proof. intros Hab Hbc i Hi. auto. Qed.

(** The refinement, fit by fit: an exception of a fit ends it. *)
Lemma do_multi_ring_fit_unfold (clean_mask : vec bool n) (tr : trace) :
  do_multi_ring_fit muon_ring_fit x y image clean_mask tr
  = match muon_ring_fit n x y image clean_mask with
    | Raise e => (Raise e, (tr ++ [vec_to_list clean_mask])%list)
    | Ok rf1 =>
        let m1 := tighten x y rf1 clean_mask in
        match muon_ring_fit n x y image m1 with
        | Raise e =>
            (Raise e, (tr ++ [vec_to_list clean_mask; vec_to_list m1])%list)
        | Ok rf2 =>
            let m2 := tighten x y rf2 m1 in
            match muon_ring_fit n x y image m2 with
            | Raise e =>
                (Raise e,
                 (tr ++ [vec_to_list clean_mask; vec_to_list m1;
                         vec_to_list m2])%list)
            | Ok rf3 =>
                (Ok (rf3, tighten x y rf3 m2),
                 (tr ++ [vec_to_list clean_mask; vec_to_list m1;
                         vec_to_list m2])%list)
            end
        end
    end.
Proof.
  unfold tighten, dist_mask, calc_dist_and_ring_dist.
  unfold do_multi_ring_fit, calc_dist_and_ring_dist, mbind, M_bind, call_fit.
  cbn [fst snd]. cbn zeta.
  destruct (muon_ring_fit n x y image clean_mask) as [rf1|e]; [|reflexivity].
  match goal with
  | |- context [muon_ring_fit n x y image ?m] =>
      destruct (muon_ring_fit n x y image m) as [rf2|e]
  end; [|rewrite <- !app_assoc; reflexivity].
  match goal with
  | |- context [muon_ring_fit n x y image (np.mul_bool ?m ?d)] =>
      destruct (muon_ring_fit n x y image (np.mul_bool m d)) as [rf3|e]
  end; rewrite <- !app_assoc; reflexivity.
Qed.

(** C4 (as amended): when its three calls of the fitter return, the
    refinement has called the fitter exactly three times, on the cleaning
    mask and on the masks of the first and the second tightening, and it
    returns the third fit with the mask of a third tightening: the mask of
    the third fit, multiplied by the criterion of the third fit. *)
Theorem do_multi_ring_fit_three_fits_three_tightenings
    (clean_mask : vec bool n) (tr : trace)
    (rf1 rf2 rf3 : MuonRingParameter.t) :
  muon_ring_fit n x y image clean_mask = Ok rf1 ->
  muon_ring_fit n x y image (tighten x y rf1 clean_mask) = Ok rf2 ->
  muon_ring_fit n x y image (tighten x y rf2 (tighten x y rf1 clean_mask))
    = Ok rf3 ->
  do_multi_ring_fit muon_ring_fit x y image clean_mask tr
  = (Ok (rf3,
         tighten x y rf3 (tighten x y rf2 (tighten x y rf1 clean_mask))),
     (tr ++ [vec_to_list clean_mask;
             vec_to_list (tighten x y rf1 clean_mask);
             vec_to_list (tighten x y rf2 (tighten x y rf1 clean_mask))])%list).
Proof.
  intros H1 H2 H3. rewrite do_multi_ring_fit_unfold.
  rewrite H1. cbn zeta. rewrite H2, H3. reflexivity.
Qed.

(** C5: in every run of the refinement, also one a fit ends with an
    exception, the masks given to the fitter start with the cleaning mask
    and each is a subset of the one before, so all are subsets of the
    cleaning mask; the returned mask is a subset of the mask of the third
    fit and of the cleaning mask. *)
Theorem do_multi_ring_fit_masks_narrow (clean_mask : vec bool n) (tr : trace) :
  exists masks : list (vec bool n),
    (do_multi_ring_fit muon_ring_fit x y image clean_mask tr).2
    = (tr ++ (vec_to_list <$> clean_mask :: masks))%list
    /\ narrowing clean_mask masks
    /\ Forall (fun m => mask_subset m clean_mask) masks
    /\ forall ring_fit mask,
         (do_multi_ring_fit muon_ring_fit x y image clean_mask tr).1
         = Ok (ring_fit, mask) ->
         exists m1 m2,
           masks = [m1; m2] /\ mask_subset mask m2 /\ mask_subset mask m1
           /\ mask_subset mask clean_mask.
Proof.
  rewrite do_multi_ring_fit_unfold.
  destruct (muon_ring_fit n x y image clean_mask) as [rf1|e].
  2: { exists []. repeat split; [constructor | discriminate]. }
  cbn zeta. set (m1 := tighten x y rf1 clean_mask).
  assert (S1 : mask_subset m1 clean_mask) by apply tighten_subset.
  destruct (muon_ring_fit n x y image m1) as [rf2|e].
  2: { exists [m1]. repeat split; [exact S1 | | discriminate].
       repeat constructor; exact S1. }
  set (m2 := tighten x y rf2 m1).
  assert (S2 : mask_subset m2 m1) by apply tighten_subset.
  assert (S2' : mask_subset m2 clean_mask)
    by exact (mask_subset_trans _ _ _ S2 S1).
  destruct (muon_ring_fit n x y image m2) as [rf3|e].
  2: { exists [m1; m2]. repeat split; [exact S1 | exact S2 | | discriminate].
       repeat constructor; assumption. }
  exists [m1; m2]. repeat split; [exact S1 | exact S2 | |].
  { repeat constructor; assumption. }
  cbn [fst]. intros ring_fit mask [= <- <-].
  assert (S3 : mask_subset (tighten x y rf3 m2) m2) by apply tighten_subset.
  exists m1, m2. repeat split; [exact S3 | |].
  - exact (mask_subset_trans _ _ _ S3 S2).
  - exact (mask_subset_trans _ _ _ S3 S2').
Qed.

(** C9: the criterion of a tightening step holds at pixel [i] iff
    [|sqrt((x_i - cx)^2 + (y_i - cy)^2) - r| < r * 0.4], with the fixed
    multiplier 0.4; a tightening step gives, at every pixel, the mask
    before it and the criterion of the fit on that mask; and every run of
    the refinement, also one that a fit ends with an exception, calls each
    fit on the mask so tightened by the fit before it, and returns the
    mask of the third fit tightened by the third fit. *)
Theorem do_multi_ring_fit_tightening_criterion (clean_mask : vec bool n)
    (tr : trace) :
  (forall rf i, dist_mask x y rf !!! i = inlier (x !!! i) (y !!! i) rf)
  /\ (forall rf (mask : vec bool n) i,
        tighten x y rf mask !!! i
        = mask !!! i && inlier (x !!! i) (y !!! i) rf)
  /\ do_multi_ring_fit muon_ring_fit x y image clean_mask tr
     = match muon_ring_fit n x y image clean_mask with
       | Raise e => (Raise e, (tr ++ [vec_to_list clean_mask])%list)
       | Ok rf1 =>
           let m1 := tighten x y rf1 clean_mask in
           match muon_ring_fit n x y image m1 with
           | Raise e =>
               (Raise e,
                (tr ++ [vec_to_list clean_mask; vec_to_list m1])%list)
           | Ok rf2 =>
               let m2 := tighten x y rf2 m1 in
               match muon_ring_fit n x y image m2 with
               | Raise e =>
                   (Raise e,
                    (tr ++ [vec_to_list clean_mask; vec_to_list m1;
                            vec_to_list m2])%list)
               | Ok rf3 =>
                   (Ok (rf3, tighten x y rf3 m2),
                    (tr ++ [vec_to_list clean_mask; vec_to_list m1;
                            vec_to_list m2])%list)
               end
           end
       end.
Proof.
  split; [intros rf i; apply dist_mask_lookup|].
  split; [intros rf mask i; apply tighten_lookup|].
  apply do_multi_ring_fit_unfold.
Qed.

End refinement.

(** ** The selection gates *)

(** C2 (as amended): the ring-good gate returns true only for a radius
    strictly between 1.0 and 1.5 degrees; it rejects a radius of exactly
    1.0 degrees, a radius of exactly 1.5 degrees, every radius below 1.0
    degrees and every radius at or above 1.5 degrees. *)
Theorem is_ring_good_radius_window {n} (cleaned_image : vec float n)
    (ring_fit : MuonRingParameter.t) (muon_cut : MuonCut) :
  let r := MuonRingParameter.ring_radius ring_fit in
  (is_ring_good cleaned_image ring_fit muon_cut = true ->
   (1 <? r) = true /\ (r <? 1.5) = true)
  /\ (r = 1 -> is_ring_good cleaned_image ring_fit muon_cut = false)
  /\ (r = 1.5 -> is_ring_good cleaned_image ring_fit muon_cut = false)
  /\ ((r <? 1) = true ->
      is_ring_good cleaned_image ring_fit muon_cut = false)
  /\ ((1.5 <=? r) = true ->
      is_ring_good cleaned_image ring_fit muon_cut = false).
Proof.
  intros r. unfold is_ring_good, F.gtb. fold r.
  assert (Low : (1 <? r) = false ->
                forall a b c d, a && b && c && (1 <? r) && d = false).
  { intros -> a b c d. rewrite andb_false_r. reflexivity. }
  assert (High : (r <? 1.5) = false ->
                 forall a, a && (r <? 1.5) = false).
  { intros -> a. apply andb_false_r. }
  split.
  { intros H. rewrite !andb_true_iff in H. tauto. }
  split.
  { intros E. apply Low. rewrite E. reflexivity. }
  split.
  { intros E. apply High. rewrite E. reflexivity. }
  split.
  { intros E. apply Low. apply ltb_not_gtb. exact E. }
  intros E. apply High. apply leb_not_gtb. exact E.
Qed.

(** C3 (as amended): the list [conditions] holds throughout iff the impact
    parameter lies strictly between [low * mirror_radius] and
    [high * mirror_radius] and the ring width strictly between the two
    bounds of the telescope type; an impact parameter of exactly
    [low * mirror_radius] or [high * mirror_radius] and a ring width equal
    to a bound are rejected. *)
Theorem muon_found_strict_windows (muonintensityoutput : MuonIntensityParameter.t)
    (muon_cut : MuonCut) (mirror_radius : float) :
  let ip := MuonIntensityParameter.impact_parameter muonintensityoutput in
  let w := MuonIntensityParameter.ring_width muonintensityoutput in
  let found := all (conditions muonintensityoutput muon_cut mirror_radius) in
  (found = true <->
   ((Impact muon_cut).1 * mirror_radius <? ip) = true
   /\ (ip <? (Impact muon_cut).2 * mirror_radius) = true
   /\ ((RingWidth muon_cut).1 <? w) = true
   /\ (w <? (RingWidth muon_cut).2) = true)
  /\ (ip = (Impact muon_cut).1 * mirror_radius -> found = false)
  /\ (ip = (Impact muon_cut).2 * mirror_radius -> found = false)
  /\ (w = (RingWidth muon_cut).1 -> found = false)
  /\ (w = (RingWidth muon_cut).2 -> found = false).
Proof.
  intros ip w found.
  assert (Iff : found = true <->
    ((Impact muon_cut).1 * mirror_radius <? ip) = true
    /\ (ip <? (Impact muon_cut).2 * mirror_radius) = true
    /\ ((RingWidth muon_cut).1 <? w) = true
    /\ (w <? (RingWidth muon_cut).2) = true).
  { unfold found, all, conditions, F.gtb. fold ip w. cbn [forallb id].
    rewrite !andb_true_iff. tauto. }
  split; [exact Iff|].
  repeat split; intros E; destruct found; try reflexivity;
    destruct (proj1 Iff eq_refl) as (H1 & H2 & H3 & H4);
    rewrite E in *; rewrite ltb_irrefl in *; discriminate.
Qed.

(** ** The event loop *)

Lemma np_any_false {n} (mask : vec bool n) :
  (forall i, mask !!! i = false) -> np.any mask = false.
Proof.
  unfold np.any. induction mask as [|b n mask IH]; intros H.
  - reflexivity.
  - cbn. rewrite (H 0%fin : b = false). cbn.
    apply IH. intros i. exact (H (FS i)).
Qed.

Section event_loop.
Context `{!Collaborators} (muon_cuts_by_name : gmap string MuonCut)
        (event : Event).

(** The loop body, case by case. *)
Lemma analyze_telescope_unfold (telid : Z) (tr : trace) :
  analyze_telescope muon_cuts_by_name event telid tr
  = match muon_cuts_by_name !! str (teldes (tel event telid)) with
    | None => (Raise (KeyError (str (teldes (tel event telid)))), tr)
    | Some muon_cut =>
        if negb (np.any (tel_clean_mask event telid muon_cut))
        then (Ok None, tr)
        else
          match do_multi_ring_fit (MuonRingFitter "chaudhuri_kundu")
                  (tel_xy event telid).1 (tel_xy event telid).2
                  (tel_image event telid)
                  (tel_clean_mask event telid muon_cut) tr with
          | (Raise e, tr') => (Raise e, tr')
          | (Ok (ring_fit, mask), tr') =>
              if is_ring_good
                   (np.mul_float_bool (tel_image event telid) mask)
                   (tel_ring_fit event telid muon_cut ring_fit) muon_cut
              then (Raise (TypeError missing_ctel), tr')
              else (Ok (Some (ring_only_result event telid muon_cut ring_fit)),
                    tr')
          end
    end.
Proof.
  unfold analyze_telescope, getitem.
  unfold mbind at 1. unfold M_bind at 1.
  destruct (muon_cuts_by_name !! str (teldes (tel event telid)))
    as [muon_cut|]; [|reflexivity].
  cbn [mret M_ret].
  change (transform_pixel_coords_from_meter_to_deg
            (pix_x (camera (teldes (tel event telid))))
            (pix_y (camera (teldes (tel event telid))))
            (equivalent_focal_length (optics (teldes (tel event telid))))
            true)
    with (tel_xy event telid).
  destruct (tel_xy event telid) as [x y] eqn:Exy. cbn [fst snd].
  change (tailcuts_clean (camera (teldes (tel event telid)))
            (image (tel event telid))
            (picture_thresh (tail_cuts muon_cut))
            (boundary_thresh (tail_cuts muon_cut)))
    with (tel_clean_mask event telid muon_cut).
  destruct (np.any (tel_clean_mask event telid muon_cut)); [|reflexivity].
  cbn [negb]. unfold mbind at 1. unfold M_bind at 1.
  change (image (tel event telid)) with (tel_image event telid).
  destruct (do_multi_ring_fit (MuonRingFitter "chaudhuri_kundu") x y
              (tel_image event telid) (tel_clean_mask event telid muon_cut) tr)
    as [[[ring_fit mask]|e] tr']; [|reflexivity].
  change (MuonRingParameter.set_ring_containment _ _)
    with (tel_ring_fit event telid muon_cut ring_fit).
  destruct (is_ring_good (np.mul_float_bool (tel_image event telid) mask)
              (tel_ring_fit event telid muon_cut ring_fit) muon_cut);
    reflexivity.
Qed.

(** The loop over a list of telescopes followed by another. *)
Lemma analyze_loop_app (pre post : list Z) (output : list MuonResult)
    (tr : trace) :
  analyze_loop muon_cuts_by_name event (pre ++ post)%list output tr
  = match analyze_loop muon_cuts_by_name event pre output tr with
    | (Ok output', tr') =>
        analyze_loop muon_cuts_by_name event post output' tr'
    | (Raise e, tr') => (Raise e, tr')
    end.
Proof.
  revert output tr. induction pre as [|telid pre IH]; intros output tr.
  - reflexivity.
  - cbn [app analyze_loop]. unfold mbind, M_bind.
    destruct (analyze_telescope muon_cuts_by_name event telid tr)
      as [[r|e] tr1]; [apply IH | reflexivity].
Qed.

(** An exception of the loop body is the outcome of the loop. *)
Lemma analyze_loop_raise (telid : Z) (tels : list Z)
    (output : list MuonResult) (tr tr' : trace) (e : exn) :
  analyze_telescope muon_cuts_by_name event telid tr = (Raise e, tr') ->
  analyze_loop muon_cuts_by_name event (telid :: tels) output tr
  = (Raise e, tr').
Proof.
  intros Hbody. cbn [analyze_loop]. unfold mbind, M_bind.
  rewrite Hbody. reflexivity.
Qed.

(** C7: a telescope whose type is in the table and whose cleaning mask
    selects no pixel ends its loop iteration at the early exit: the body
    returns without a record, without an exception and without a call of
    the fitter, and the loop goes on with the output unchanged. *)
Theorem empty_clean_mask_no_record (telid : Z) (muon_cut : MuonCut)
    (tels : list Z) (output : list MuonResult) (tr : trace) :
  muon_cuts_by_name !! str (teldes (tel event telid)) = Some muon_cut ->
  (forall i, tel_clean_mask event telid muon_cut !!! i = false) ->
  analyze_telescope muon_cuts_by_name event telid tr = (Ok None, tr)
  /\ (forall e tr', analyze_telescope muon_cuts_by_name event telid tr
                    <> (Raise e, tr'))
  /\ analyze_loop muon_cuts_by_name event (telid :: tels) output tr
     = analyze_loop muon_cuts_by_name event tels output tr.
Proof.
  intros Hcut Hempty.
  assert (Hbody : analyze_telescope muon_cuts_by_name event telid tr
                  = (Ok None, tr)).
  { rewrite analyze_telescope_unfold, Hcut.
    rewrite (np_any_false _ Hempty). reflexivity. }
  split; [exact Hbody|]. split.
  - intros e tr'. rewrite Hbody. discriminate.
  - cbn [analyze_loop]. unfold mbind, M_bind. rewrite Hbody. reflexivity.
Qed.

(** C6 (as amended): a telescope whose type is not in the table raises
    KeyError in the loop body, and an exception of the loop body for one
    telescope is the outcome of the whole loop: the records of the
    telescopes before it are dropped and the telescopes after it are not
    processed. *)
Theorem exception_aborts_event (pre post : list Z) (telid : Z)
    (output output' : list MuonResult) (tr tr' tr'' : trace) (e : exn) :
  (muon_cuts_by_name !! str (teldes (tel event telid)) = None ->
   analyze_telescope muon_cuts_by_name event telid tr'
   = (Raise (KeyError (str (teldes (tel event telid)))), tr'))
  /\ (analyze_loop muon_cuts_by_name event pre output tr = (Ok output', tr') ->
      analyze_telescope muon_cuts_by_name event telid tr' = (Raise e, tr'') ->
      analyze_loop muon_cuts_by_name event (pre ++ telid :: post)%list output tr
      = (Raise e, tr'')).
Proof.
  split.
  - intros Hkey. rewrite analyze_telescope_unfold, Hkey. reflexivity.
  - intros Hpre Hbody. rewrite analyze_loop_app, Hpre.
    apply analyze_loop_raise. exact Hbody.
Qed.

(** C1 (what the code does where the claim promises an intensity result):
    for a telescope whose ring passes [is_ring_good], the loop body calls
    [calc_muon_intensity_parameters] with five arguments for six
    parameters and raises TypeError; no record is appended and the loop
    ends with that exception. *)
Theorem ring_good_raises_TypeError (telid : Z) (muon_cut : MuonCut)
    (ring_fit : MuonRingParameter.t)
    (mask : vec bool (n_pixels (camera (teldes (tel event telid)))))
    (tels : list Z) (output : list MuonResult) (tr tr' : trace) :
  muon_cuts_by_name !! str (teldes (tel event telid)) = Some muon_cut ->
  np.any (tel_clean_mask event telid muon_cut) = true ->
  do_multi_ring_fit (MuonRingFitter "chaudhuri_kundu")
    (tel_xy event telid).1 (tel_xy event telid).2 (tel_image event telid)
    (tel_clean_mask event telid muon_cut) tr
  = (Ok (ring_fit, mask), tr') ->
  is_ring_good (np.mul_float_bool (tel_image event telid) mask)
               (tel_ring_fit event telid muon_cut ring_fit) muon_cut = true ->
  analyze_telescope muon_cuts_by_name event telid tr
  = (Raise (TypeError missing_ctel), tr')
  /\ analyze_loop muon_cuts_by_name event (telid :: tels) output tr
     = (Raise (TypeError missing_ctel), tr').
Proof.
  intros Hcut Hany Hfit Hgood.
  assert (Hbody : analyze_telescope muon_cuts_by_name event telid tr
                  = (Raise (TypeError missing_ctel), tr')).
  { rewrite analyze_telescope_unfold, Hcut, Hany. cbn [negb].
    rewrite Hfit, Hgood. reflexivity. }
  split; [exact Hbody|].
  apply analyze_loop_raise. exact Hbody.
Qed.

(** A ring that fails [is_ring_good] gives a record with the ring alone. *)
Lemma ring_not_good_ring_only (telid : Z) (muon_cut : MuonCut)
    (ring_fit : MuonRingParameter.t)
    (mask : vec bool (n_pixels (camera (teldes (tel event telid)))))
    (tr tr' : trace) :
  muon_cuts_by_name !! str (teldes (tel event telid)) = Some muon_cut ->
  np.any (tel_clean_mask event telid muon_cut) = true ->
  do_multi_ring_fit (MuonRingFitter "chaudhuri_kundu")
    (tel_xy event telid).1 (tel_xy event telid).2 (tel_image event telid)
    (tel_clean_mask event telid muon_cut) tr
  = (Ok (ring_fit, mask), tr') ->
  is_ring_good (np.mul_float_bool (tel_image event telid) mask)
               (tel_ring_fit event telid muon_cut ring_fit) muon_cut = false ->
  analyze_telescope muon_cuts_by_name event telid tr
  = (Ok (Some (ring_only_result event telid muon_cut ring_fit)), tr').
Proof.
  intros Hcut Hany Hfit Hgood.
  rewrite analyze_telescope_unfold, Hcut, Hany. cbn [negb].
  rewrite Hfit, Hgood. reflexivity.
Qed.

(** No record of the loop body carries an intensity result or the
    muon-found flag. *)
Lemma analyze_telescope_no_intensity (telid : Z) (tr tr' : trace)
    (result : MuonResult) :
  analyze_telescope muon_cuts_by_name event telid tr = (Ok (Some result), tr')
  -> MuonIntensityParams result = None /\ muon_found result = None.
Proof.
  rewrite analyze_telescope_unfold.
  destruct (muon_cuts_by_name !! str (teldes (tel event telid)))
    as [muon_cut|]; [|discriminate].
  destruct (negb (np.any (tel_clean_mask event telid muon_cut)));
    [discriminate|].
  destruct (do_multi_ring_fit _ _ _ _ _ _) as [[[ring_fit mask]|e] tr1];
    [|discriminate].
  destruct (is_ring_good _ _ _); [discriminate|].
  intros [= <- _]. split; reflexivity.
Qed.

(** With all six arguments, [calc_muon_intensity_parameters] raises too:
    the exception of the intensity fit, or NameError for [ring_dist]. *)
Lemma calc_muon_intensity_parameters_raises {n} (x y image : vec float n)
    (mask : vec bool n) (ring_fit : MuonRingParameter.t)
    (ctel : MuonLineIntegrate) (tr : trace) :
  exists e,
    calc_muon_intensity_parameters x y image mask ring_fit (Some ctel) tr
    = (Raise e, tr)
    /\ (e = NameError "ring_dist"
        \/ fit_muon ctel
             (MuonRingParameter.ring_center_x ring_fit)
             (MuonRingParameter.ring_center_y ring_fit)
             (MuonRingParameter.ring_radius ring_fit)
             (np.select mask x) (np.select mask y) (np.select mask image)
           = Raise e).
Proof.
  unfold calc_muon_intensity_parameters, required, lift, unbound_name, raise.
  unfold mbind, M_bind, mret, M_ret.
  destruct (fit_muon _ _ _ _ _ _ _) as [out|e].
  - exists (NameError "ring_dist"). split; [reflexivity | left; reflexivity].
  - exists e. split; [reflexivity | right; reflexivity].
Qed.

End event_loop.

(** ** The projection *)

(** C8 (as amended): in fast mode the first component of the result is the
    degree conversion of [y / foc_len] and the second that of
    [x / foc_len].  The event loop uses this fast mode: the coordinates it
    gives to the ring refinement of a telescope are the degree conversions
    of [pix_y / foc_len] and of [pix_x / foc_len], in this order, and its
    result does not depend on the exact projection. *)
Theorem transform_fast_mode_swaps (C : Collaborators) {n}
    (x y : vec float n) (foc_len : float) :
  transform_pixel_coords_from_meter_to_deg x y foc_len true
  = (vmap (fun v => rad2deg (v / foc_len)) y,
     vmap (fun v => rad2deg (v / foc_len)) x)
  /\ (forall exact event,
        @analyze_muon_event (with_exact_projection C exact) event
        = @analyze_muon_event C event)
  /\ forall (muon_cuts_by_name : gmap string MuonCut) (event : Event)
            (telid : Z) (tr : trace),
       let teldes := teldes (tel event telid) in
       let f := equivalent_focal_length (optics teldes) in
       let x_deg := vmap (fun v => rad2deg (v / f)) (pix_y (camera teldes)) in
       let y_deg := vmap (fun v => rad2deg (v / f)) (pix_x (camera teldes)) in
       analyze_telescope muon_cuts_by_name event telid tr
       = match muon_cuts_by_name !! str teldes with
         | None => (Raise (KeyError (str teldes)), tr)
         | Some muon_cut =>
             if negb (np.any (tel_clean_mask event telid muon_cut))
             then (Ok None, tr)
             else
               match do_multi_ring_fit (MuonRingFitter "chaudhuri_kundu")
                       x_deg y_deg (tel_image event telid)
                       (tel_clean_mask event telid muon_cut) tr with
               | (Raise e, tr') => (Raise e, tr')
               | (Ok (ring_fit, mask), tr') =>
                   if is_ring_good
                        (np.mul_float_bool (tel_image event telid) mask)
                        (tel_ring_fit event telid muon_cut ring_fit) muon_cut
                   then (Raise (TypeError missing_ctel), tr')
                   else
                     (Ok (Some (ring_only_result event telid muon_cut
                                                 ring_fit)),
                      tr')
               end
         end.
Proof.
  split; [reflexivity|].
  split; [intros exact event; reflexivity|].
  intros muon_cuts_by_name event telid tr. cbn zeta.
  rewrite analyze_telescope_unfold. reflexivity.
Qed.

(** * The properties on the sample inputs *)

(** ** The gates *)

(** A ring of exactly 1.0 deg is rejected, although the image and the ring
    centre pass the other conditions: the same ring at 1.25 deg is good. *)
Lemma is_ring_good_rejects_radius_one :
  is_ring_good sample.ring_image (sample.centred_ring 1) sample.lst_cut = false
  /\ is_ring_good sample.ring_image (sample.centred_ring 1.25) sample.lst_cut
     = true.
Proof. split; vm_compute; reflexivity. Qed.

Lemma is_ring_good_radius_window_sample :
  is_ring_good sample.ring_image (sample.centred_ring 1.5) sample.lst_cut
  = false
  /\ is_ring_good sample.ring_image (sample.centred_ring 0.9) sample.lst_cut
     = false.
Proof.
  split.
  - destruct (is_ring_good_radius_window
                sample.ring_image (sample.centred_ring 1.5) sample.lst_cut)
      as (_ & _ & Hhigh & _).
    apply Hhigh. reflexivity.
  - destruct (is_ring_good_radius_window
                sample.ring_image (sample.centred_ring 0.9) sample.lst_cut)
      as (_ & _ & _ & Hbelow & _).
    apply Hbelow. reflexivity.
Defined.

(** An impact parameter of exactly [low * mirror_radius] fails the second
    condition while the other three hold. *)
Lemma muon_found_rejects_low_bound :
  conditions (sample.intensity (0.2 * 11.5) 0.05) sample.lst_cut 11.5
  = [true; false; true; true]
  /\ all (conditions (sample.intensity (0.2 * 11.5) 0.05) sample.lst_cut 11.5)
     = false.
Proof. split; vm_compute; reflexivity. Qed.

Lemma muon_found_strict_windows_sample :
  all (conditions (sample.intensity 5 0.05) sample.lst_cut 11.5) = true
  /\ all (conditions (sample.intensity (0.9 * 11.5) 0.05) sample.lst_cut 11.5)
     = false.
Proof.
  split.
  - destruct (muon_found_strict_windows
                (sample.intensity 5 0.05) sample.lst_cut 11.5)
      as (Hiff & _).
    apply Hiff. repeat split; reflexivity.
  - destruct (muon_found_strict_windows
                (sample.intensity (0.9 * 11.5) 0.05) sample.lst_cut 11.5)
      as (_ & _ & Hhigh & _).
    apply Hhigh. reflexivity.
Defined.

(** ** The projection *)

(** For x = 0.28 m, y = 0.56 m and a focal length of 28 m the first
    component is 1.146 deg, the angle of y, not 0.573 deg, the angle of
    x. *)
Lemma transform_fast_mode_first_is_not_x :
  @transform_pixel_coords_from_meter_to_deg sample.collaborators 1
    sample.one_x sample.one_y 28 true
  <> (vmap (fun v => sample.np_rad2deg (v / 28)) sample.one_x,
      vmap (fun v => sample.np_rad2deg (v / 28)) sample.one_y).
Proof.
  intros Heq.
  apply (f_equal (fun p : vec float 1 * vec float 1 => p.1 !!! 0%fin <? 1))
    in Heq.
  vm_compute in Heq. discriminate.
Qed.

(** The ring of the four pixels around x = 0.56 m, y = 0.28 m is found
    with its centre at 0.573 deg in the first coordinate, the angle of
    0.28 m, and at 1.146 deg in the second, the angle of 0.56 m. *)
Lemma transform_fast_mode_swaps_sample :
  exists result tr,
    @analyze_telescope sample.collaborators
      generate_muon_cuts_by_telescope_name sample.offset_event 1%Z []
    = (Ok (Some result), tr)
    /\ (0.57 <? MuonRingParameter.ring_center_x (MuonRingParams result))
       = true
    /\ (MuonRingParameter.ring_center_x (MuonRingParams result) <? 0.58)
       = true
    /\ (1.14 <? MuonRingParameter.ring_center_y (MuonRingParams result))
       = true
    /\ (MuonRingParameter.ring_center_y (MuonRingParams result) <? 1.15)
       = true.
Proof.
  destruct (transform_fast_mode_swaps sample.collaborators
              sample.one_x sample.one_y 28)
    as (_ & _ & Hbody).
  eexists. eexists. split.
  - rewrite Hbody. vm_compute. reflexivity.
  - repeat split; vm_compute; reflexivity.
Defined.

(** ** Ring refinement on the six pixels *)

(** The third tightening removes pixel 1: the returned mask is not the
    mask the third fit was given. *)
Lemma do_multi_ring_fit_returns_tightened_mask :
  exists ring_fit tr,
    do_multi_ring_fit sample.centroid_fit sample.six_x sample.six_y
                      sample.six_image sample.six_clean []
    = (Ok (ring_fit, [# false; false; false; true; true; true]), tr)
    /\ tr = [[true; true; true; true; true; true];
             [true; true; false; true; true; true];
             [false; true; false; true; true; true]]
    /\ last tr <> Some [false; false; false; true; true; true].
Proof.
  eexists. eexists. split; [vm_compute; reflexivity|].
  split; [reflexivity | discriminate].
Qed.

Lemma do_multi_ring_fit_three_fits_sample :
  exists ring_fit,
    do_multi_ring_fit sample.centroid_fit sample.six_x sample.six_y
                      sample.six_image sample.six_clean []
    = (Ok (ring_fit, [# false; false; false; true; true; true]),
       [[true; true; true; true; true; true];
        [true; true; false; true; true; true];
        [false; true; false; true; true; true]]).
Proof.
  eexists.
  etransitivity.
  - apply (do_multi_ring_fit_three_fits_three_tightenings
             sample.centroid_fit sample.six_x sample.six_y sample.six_image
             sample.six_clean []); reflexivity.
  - vm_compute. reflexivity.
Defined.

Lemma do_multi_ring_fit_masks_narrow_sample :
  mask_subset [# false; false; false; true; true; true] sample.six_clean.
Proof.
  destruct (do_multi_ring_fit_masks_narrow
              sample.centroid_fit sample.six_x sample.six_y sample.six_image
              sample.six_clean [])
    as (masks & _ & _ & _ & Hret).
  edestruct Hret as (m1 & m2 & _ & _ & _ & Hclean).
  - vm_compute. reflexivity.
  - exact Hclean.
Defined.

Lemma do_multi_ring_fit_tightening_criterion_sample :
  exists rf3,
    do_multi_ring_fit sample.centroid_fit sample.six_x sample.six_y
                      sample.six_image sample.six_clean []
    = (Ok (rf3, [# false; false; false; true; true; true]),
       [[true; true; true; true; true; true];
        [true; true; false; true; true; true];
        [false; true; false; true; true; true]])
    /\ forall i : fin 6,
         [# false; false; false; true; true; true] !!! i
         = [# false; true; false; true; true; true] !!! i
           && inlier (sample.six_x !!! i) (sample.six_y !!! i) rf3.
Proof.
  destruct (do_multi_ring_fit_tightening_criterion
              sample.centroid_fit sample.six_x sample.six_y sample.six_image
              sample.six_clean [])
    as (_ & Htighten & Hrun).
  eexists. split.
  - rewrite Hrun. vm_compute. reflexivity.
  - intros i. rewrite <- Htighten.
    apply (f_equal (fun m : vec bool 6 => m !!! i)).
    vm_compute. reflexivity.
Defined.

(** ** The event loop *)

(** The ring of 200 pixels passes [is_ring_good]; the event ends with
    TypeError after the three fits. *)
Lemma ring_event_raises_TypeError :
  @analyze_muon_event sample.collaborators sample.ring_event []
  = (Raise (TypeError missing_ctel),
     [replicate 200 true; replicate 200 true; replicate 200 true]).
Proof.
  unfold analyze_muon_event.
  change (dl0_tels_with_data sample.ring_event) with [1%Z].
  etransitivity.
  - eapply (ring_good_raises_TypeError
              (H := sample.collaborators)
              generate_muon_cuts_by_telescope_name sample.ring_event 1%Z
              sample.lst_cut).
    + vm_compute. reflexivity.
    + vm_compute. reflexivity.
    + vm_compute. reflexivity.
    + vm_compute. reflexivity.
  - vm_compute. reflexivity.
Defined.

(** Telescope 1 alone gives a record; with telescope 2, of a type the
    table does not have, after it the event gives KeyError and no
    record. *)
Lemma unknown_telescope_drops_sibling_record :
  (exists result tr,
     @analyze_muon_event sample.collaborators (sample.small_event [1%Z]) []
     = (Ok [result], tr)
     /\ MuonRingParameter.tel_id (MuonRingParams result) = 1%Z)
  /\ exists tr,
       @analyze_muon_event sample.collaborators
         (sample.small_event [1%Z; 2%Z]) []
       = (Raise (KeyError "LST_LST_Unknown"), tr).
Proof.
  split.
  - eexists. eexists. split; vm_compute; reflexivity.
  - eexists. vm_compute. reflexivity.
Qed.

Lemma exception_aborts_event_sample :
  exists tr,
    @analyze_loop sample.collaborators generate_muon_cuts_by_telescope_name
      (sample.small_event [1%Z; 2%Z; 1%Z]) [1%Z; 2%Z; 1%Z] [] []
    = (Raise (KeyError "LST_LST_Unknown"), tr).
Proof.
  eexists.
  edestruct (exception_aborts_event
               (H := sample.collaborators)
               generate_muon_cuts_by_telescope_name
               (sample.small_event [1%Z; 2%Z; 1%Z]) [1%Z] [1%Z] 2%Z [])
    as (Hkey & Hloop).
  apply Hloop.
  - vm_compute. reflexivity.
  - apply Hkey. vm_compute. reflexivity.
Defined.

Lemma empty_clean_mask_no_record_sample :
  @analyze_loop sample.collaborators generate_muon_cuts_by_telescope_name
    (sample.small_event [3%Z; 1%Z]) [3%Z; 1%Z] [] []
  = @analyze_loop sample.collaborators generate_muon_cuts_by_telescope_name
      (sample.small_event [3%Z; 1%Z]) [1%Z] [] [].
Proof.
  eapply (empty_clean_mask_no_record
            (H := sample.collaborators)
            generate_muon_cuts_by_telescope_name
            (sample.small_event [3%Z; 1%Z]) 3%Z sample.lst_cut).
  - vm_compute. reflexivity.
  - intros i. repeat (inv_fin i; [reflexivity | intros i]). inv_fin i.
Defined.

(** * Further properties *)

(** ** The intensity parameters *)

(** [calc_muon_intensity_parameters] returns on no input: without [ctel]
    it raises TypeError before the intensity fit is called; with [ctel] it
    raises the exception of the intensity fit, or NameError for
    [ring_dist] when that fit returns.  The trace is left as it is. *)
Theorem calc_muon_intensity_parameters_never_returns `{!Collaborators} {n}
    (x y image : vec float n) (mask : vec bool n)
    (ring_fit : MuonRingParameter.t) (ctel : option MuonLineIntegrate)
    (tr : trace) :
  exists e,
    calc_muon_intensity_parameters x y image mask ring_fit ctel tr
    = (Raise e, tr)
    /\ e = match ctel with
           | None => TypeError missing_ctel
           | Some c =>
               match fit_muon c
                       (MuonRingParameter.ring_center_x ring_fit)
                       (MuonRingParameter.ring_center_y ring_fit)
                       (MuonRingParameter.ring_radius ring_fit)
                       (np.select mask x) (np.select mask y)
                       (np.select mask image) with
               | Ok _ => NameError "ring_dist"
               | Raise e' => e'
               end
           end.
Proof.
  unfold calc_muon_intensity_parameters, required, lift, unbound_name, raise.
  unfold mbind, M_bind, mret, M_ret.
  destruct ctel as [c|].
  - destruct (fit_muon _ _ _ _ _ _ _) as [out|e'];
      eexists; split; reflexivity.
  - eexists; split; reflexivity.
Qed.

(** ** Ring refinement, once more *)

Section refinement_more.
Context {n : nat} (muon_ring_fit : RingFit) (x y image : vec float n).

(** The refinement does not read the trace: it appends to it. *)
Lemma do_multi_ring_fit_frame (clean_mask : vec bool n) (tr : trace) :
  do_multi_ring_fit muon_ring_fit x y image clean_mask tr
  = ((do_multi_ring_fit muon_ring_fit x y image clean_mask []).1,
     (tr ++ (do_multi_ring_fit muon_ring_fit x y image clean_mask []).2)%list).
Proof.
  rewrite !do_multi_ring_fit_unfold.
  destruct (muon_ring_fit n x y image clean_mask) as [rf1|e]; [|reflexivity].
  cbn zeta.
  destruct (muon_ring_fit n x y image (tighten x y rf1 clean_mask))
    as [rf2|e]; [|reflexivity].
  destruct (muon_ring_fit n x y image
              (tighten x y rf2 (tighten x y rf1 clean_mask)))
    as [rf3|e]; reflexivity.
Qed.

Lemma do_multi_ring_fit_Ok_calls (clean_mask : vec bool n) (tr tr' : trace)
    (ring_fit : MuonRingParameter.t) (mask : vec bool n) :
  do_multi_ring_fit muon_ring_fit x y image clean_mask tr
  = (Ok (ring_fit, mask), tr') ->
  length tr' = (length tr + 3)%nat.
Proof.
  rewrite do_multi_ring_fit_unfold.
  destruct (muon_ring_fit n x y image clean_mask) as [rf1|e]; [|discriminate].
  cbn zeta.
  destruct (muon_ring_fit n x y image (tighten x y rf1 clean_mask))
    as [rf2|e]; [|discriminate].
  destruct (muon_ring_fit n x y image
              (tighten x y rf2 (tighten x y rf1 clean_mask)))
    as [rf3|e]; [|discriminate].
  intros [= _ _ <-]. rewrite length_app. reflexivity.
Qed.

(** An exception of the k-th fit is the outcome of the refinement, after
    exactly k calls of the fitter, the last of them the one that raised:
    no fit is tried again and no later fit is called.  Every run calls the
    fitter at least once, first on the cleaning mask, and at most three
    times; and a run that ends with an exception ends with the exception
    of its last fitter call. *)
Theorem do_multi_ring_fit_exception (clean_mask : vec bool n) (tr : trace) :
  let run := do_multi_ring_fit muon_ring_fit x y image clean_mask tr in
  (forall e,
     muon_ring_fit n x y image clean_mask = Raise e ->
     run = (Raise e, (tr ++ [vec_to_list clean_mask])%list))
  /\ (forall rf1 e,
        muon_ring_fit n x y image clean_mask = Ok rf1 ->
        muon_ring_fit n x y image (tighten x y rf1 clean_mask) = Raise e ->
        run = (Raise e,
               (tr ++ [vec_to_list clean_mask;
                       vec_to_list (tighten x y rf1 clean_mask)])%list))
  /\ (forall rf1 rf2 e,
        muon_ring_fit n x y image clean_mask = Ok rf1 ->
        muon_ring_fit n x y image (tighten x y rf1 clean_mask) = Ok rf2 ->
        muon_ring_fit n x y image
          (tighten x y rf2 (tighten x y rf1 clean_mask)) = Raise e ->
        run = (Raise e,
               (tr ++ [vec_to_list clean_mask;
                       vec_to_list (tighten x y rf1 clean_mask);
                       vec_to_list
                         (tighten x y rf2 (tighten x y rf1 clean_mask))])%list))
  /\ (exists calls,
        run.2 = (tr ++ vec_to_list clean_mask :: calls)%list
        /\ (length calls <= 2)%nat)
  /\ forall e,
       run.1 = Raise e ->
       exists (k : nat) (mask : vec bool n),
         (1 <= k <= 3)%nat
         /\ length run.2 = (length tr + k)%nat
         /\ last run.2 = Some (vec_to_list mask)
         /\ muon_ring_fit n x y image mask = Raise e.
Proof.
  cbn zeta. rewrite do_multi_ring_fit_unfold.
  split; [intros e ->; reflexivity|].
  split; [intros rf1 e -> ; cbn zeta; intros ->; reflexivity|].
  split; [intros rf1 rf2 e ->; cbn zeta; intros -> ->; reflexivity|].
  destruct (muon_ring_fit n x y image clean_mask) as [rf1|e1] eqn:E1.
  2: { split.
       - exists []. split; [reflexivity | cbn; lia].
       - intros e [= <-]. exists 1%nat, clean_mask. cbn [fst snd].
         rewrite length_app, last_snoc.
         repeat split; try (cbn; lia); try reflexivity; exact E1. }
  cbn zeta.
  destruct (muon_ring_fit n x y image (tighten x y rf1 clean_mask))
    as [rf2|e2] eqn:E2.
  2: { split.
       - eexists [_]. split; [reflexivity | cbn; lia].
       - intros e [= <-]. exists 2%nat, (tighten x y rf1 clean_mask).
         cbn [fst snd].
         rewrite length_app.
         change [vec_to_list clean_mask;
                 vec_to_list (tighten x y rf1 clean_mask)]
           with ([vec_to_list clean_mask]
                 ++ [vec_to_list (tighten x y rf1 clean_mask)])%list.
         rewrite app_assoc, last_snoc.
         repeat split; try (rewrite ?length_app; cbn; lia);
           try reflexivity; exact E2. }
  destruct (muon_ring_fit n x y image
              (tighten x y rf2 (tighten x y rf1 clean_mask)))
    as [rf3|e3] eqn:E3.
  - split.
    + eexists [_; _]. split; [reflexivity | cbn; lia].
    + intros e. discriminate.
  - split.
    + eexists [_; _]. split; [reflexivity | cbn; lia].
    + intros e [= <-].
      exists 3%nat, (tighten x y rf2 (tighten x y rf1 clean_mask)).
      cbn [fst snd]. rewrite length_app.
      change [vec_to_list clean_mask;
              vec_to_list (tighten x y rf1 clean_mask);
              vec_to_list (tighten x y rf2 (tighten x y rf1 clean_mask))]
        with ([vec_to_list clean_mask;
               vec_to_list (tighten x y rf1 clean_mask)]
              ++ [vec_to_list
                    (tighten x y rf2 (tighten x y rf1 clean_mask))])%list.
      rewrite app_assoc, last_snoc.
      repeat split; try (rewrite ?length_app; cbn; lia);
        try reflexivity; exact E3.
Qed.

End refinement_more.

(** ** The inlier criterion and the tightening as operations *)

(** An absolute value is below no bound that is not positive: zero,
    negative or NaN. *)
Lemma abs_not_below_nonpositive (v b : float) :
  (0 <? b) = false -> (abs v <? b) = false.
Proof.
  rewrite !FloatAxioms.ltb_spec, FloatAxioms.abs_spec.
  change (Prim2SF 0) with (S754_zero false).
  unfold SFltb.
  destruct (Prim2SF b) as [sb|sb| |sb mb eb], (Prim2SF v) as [sv|sv| |sv mv ev];
    try destruct sb; try destruct sv; cbn; congruence.
Qed.

Section tightening.
Context {n : nat} (x y : vec float n).

(** A fitted radius for which [ring_radius * parameter] is not positive (a
    radius of zero, a negative radius, NaN) makes the criterion false at
    every pixel, whatever the pixel coordinates: the mask multiplied by it
    selects no pixel. *)
Theorem dist_mask_degenerate_radius (ring_fit : MuonRingParameter.t)
    (parameter : float) (mask : vec bool n) :
  (0 <? MuonRingParameter.ring_radius ring_fit * parameter) = false ->
  (forall i, (calc_dist_and_ring_dist x y ring_fit parameter).2 !!! i = false)
  /\ np.any (np.mul_bool mask
               (calc_dist_and_ring_dist x y ring_fit parameter).2) = false.
Proof.
  intros Hdeg.
  assert (Hall : forall i,
            (calc_dist_and_ring_dist x y ring_fit parameter).2 !!! i = false).
  { intros i. unfold calc_dist_and_ring_dist. cbn [snd].
    rewrite !vlookup_map. apply abs_not_below_nonpositive. exact Hdeg. }
  split; [exact Hall|].
  apply np_any_false. intros i. unfold np.mul_bool.
  rewrite vlookup_zip_with, Hall. apply andb_false_r.
Qed.

Lemma tighten_idemp (ring_fit : MuonRingParameter.t) (mask : vec bool n) :
  tighten x y ring_fit (tighten x y ring_fit mask) = tighten x y ring_fit mask.
Proof.
  apply vec_eq. intros i. rewrite !tighten_lookup.
  destruct (mask !!! i), (inlier (x !!! i) (y !!! i) ring_fit); reflexivity.
Qed.

(** When the second fit reproduces the ring of the first, the refinement
    has converged: the third fit is on the mask of the second, it returns
    the same ring, and the returned mask is the mask of the first
    tightening. *)
Theorem do_multi_ring_fit_converged (muon_ring_fit : RingFit)
    (image : vec float n) (clean_mask : vec bool n) (tr : trace)
    (ring_fit : MuonRingParameter.t) :
  muon_ring_fit n x y image clean_mask = Ok ring_fit ->
  muon_ring_fit n x y image (tighten x y ring_fit clean_mask) = Ok ring_fit ->
  do_multi_ring_fit muon_ring_fit x y image clean_mask tr
  = (Ok (ring_fit, tighten x y ring_fit clean_mask),
     (tr ++ [vec_to_list clean_mask;
             vec_to_list (tighten x y ring_fit clean_mask);
             vec_to_list (tighten x y ring_fit clean_mask)])%list).
Proof.
  intros H1 H2. rewrite do_multi_ring_fit_unfold, H1. cbn zeta.
  rewrite H2, !tighten_idemp, H2, tighten_idemp. reflexivity.
Qed.

End tightening.

(** ** The table of cuts, once more *)

(** A lookup in the table succeeds for the eight names and for no other
    string; the entry found has the key as its name; any other key makes
    [muon_cuts_by_name[key]] raise KeyError with that key. *)
Theorem muon_cuts_lookup_names (name : string) :
  (is_Some (generate_muon_cuts_by_telescope_name !! name)
   <-> name ∈ cuts.names)
  /\ (forall mc,
        generate_muon_cuts_by_telescope_name !! name = Some mc ->
        Name mc = name)
  /\ (name ∉ cuts.names ->
      forall tr,
        getitem generate_muon_cuts_by_telescope_name name tr
        = (Raise (KeyError name), tr)).
Proof.
  assert (Hdom : is_Some (generate_muon_cuts_by_telescope_name !! name)
                 <-> name ∈ cuts.names).
  { rewrite <- elem_of_dom, muon_cuts_dom. apply elem_of_list_to_set. }
  split; [exact Hdom|]. split.
  - intros mc Hl. apply muon_cuts_lookup_inv in Hl as (i & Hname & Hrow).
    do 8 (destruct i as [|i];
          [ injection Hname as <-; injection Hrow as <-; reflexivity | ]).
    discriminate.
  - intros Hnot tr. unfold getitem.
    destruct (generate_muon_cuts_by_telescope_name !! name) as [mc|] eqn:E.
    + exfalso. apply Hnot, Hdom. eauto.
    + reflexivity.
Qed.

(** In every entry of the table the two acceptance windows are not empty
    and the impact window lies inside the mirror, the minimum pixel count
    is positive and below the total pixel count, the picture threshold is
    below the boundary threshold, and the flag SCT is set exactly for the
    entries with a secondary mirror radius above zero. *)
Theorem muon_cuts_entries_well_formed (name : string) (mc : MuonCut) :
  generate_muon_cuts_by_telescope_name !! name = Some mc ->
  (0 <? (Impact mc).1) = true
  /\ ((Impact mc).1 <? (Impact mc).2) = true
  /\ ((Impact mc).2 <? 1) = true
  /\ (0 <? (RingWidth mc).1) = true
  /\ ((RingWidth mc).1 <? (RingWidth mc).2) = true
  /\ (0 <? min_pix mc) = true
  /\ (min_pix mc <? total_pix mc) = true
  /\ (picture_thresh (tail_cuts mc) <? boundary_thresh (tail_cuts mc)) = true
  /\ SCT mc = (0 <? SecRad mc).
Proof.
  intros Hl. apply muon_cuts_lookup_inv in Hl as (i & _ & Hrow).
  do 8 (destruct i as [|i];
        [ injection Hrow as <-; repeat split; reflexivity | ]).
  discriminate.
Qed.

Lemma muon_cuts_entries_well_formed_LST :
  (sample.lst_cut.(Impact).1 <? sample.lst_cut.(Impact).2) = true
  /\ SCT sample.lst_cut = (0 <? SecRad sample.lst_cut).
Proof.
  destruct (muon_cuts_entries_well_formed "LST_LST_LSTCam" sample.lst_cut)
    as (_ & Hi & _ & _ & _ & _ & _ & _ & Hs).
  - vm_compute. reflexivity.
  - split; [exact Hi | exact Hs].
Defined.

(** ** The ring-good gate on an empty image *)

Lemma np_count_false {n} (mask : vec bool n) :
  (forall i, mask !!! i = false) -> np.count mask = 0%nat.
Proof.
  unfold np.count. induction mask as [|b n mask IH]; intros H.
  - reflexivity.
  - cbn [vec_to_list]. rewrite (H 0%fin : b = false).
    rewrite filter_cons_False by discriminate.
    apply IH. intros i. exact (H (FS i)).
Qed.

(** An image without a nonzero pixel, such as an image multiplied by an
    empty mask, fails [is_ring_good] for every ring and every cut whose
    minimum pixel count is not negative. *)
Theorem is_ring_good_rejects_empty_image {n} (cleaned_image : vec float n)
    (ring_fit : MuonRingParameter.t) (muon_cut : MuonCut) :
  (forall i, (cleaned_image !!! i =? 0) = true) ->
  (0 <=? min_pix muon_cut) = true ->
  is_ring_good cleaned_image ring_fit muon_cut = false.
Proof.
  intros Hzero Hmin. unfold is_ring_good, npix_composing_ring.
  rewrite (np_count_false (vmap (fun q => negb (q =? 0)) cleaned_image)).
  2: { intros i. rewrite vlookup_map, Hzero. reflexivity. }
  change (F.of_nat 0) with 0. unfold F.gtb at 2.
  rewrite (leb_not_gtb _ _ Hmin).
  rewrite andb_false_r. reflexivity.
Qed.

Lemma is_ring_good_rejects_empty_image_sample :
  is_ring_good (np.mul_float_bool sample.six_image
                  [# false; false; false; false; false; false])
               (sample.centred_ring 1.25) sample.lst_cut = false.
Proof.
  apply is_ring_good_rejects_empty_image.
  - intros i. repeat (inv_fin i; [reflexivity | intros i]). inv_fin i.
  - reflexivity.
Defined.

(** ** The event loop, once more *)

Section event_loop_more.
Context `{!Collaborators} (muon_cuts_by_name : gmap string MuonCut)
        (event : Event).

(** The loop body does not read the trace: it appends to it. *)
Lemma analyze_telescope_frame (telid : Z) (tr : trace) :
  analyze_telescope muon_cuts_by_name event telid tr
  = ((analyze_telescope muon_cuts_by_name event telid []).1,
     (tr ++ (analyze_telescope muon_cuts_by_name event telid []).2)%list).
Proof.
  rewrite !analyze_telescope_unfold.
  destruct (muon_cuts_by_name !! str (teldes (tel event telid)))
    as [muon_cut|]; [|cbn; rewrite app_nil_r; reflexivity].
  destruct (negb (np.any (tel_clean_mask event telid muon_cut)));
    [cbn; rewrite app_nil_r; reflexivity|].
  rewrite (do_multi_ring_fit_frame _ _ _ _ _ tr).
  destruct (do_multi_ring_fit _ _ _ _ _ []) as [[[ring_fit mask]|e] calls];
    cbn [fst snd]; [|reflexivity].
  destruct (is_ring_good _ _ _); reflexivity.
Qed.

(** The outcomes of the loop body that are not exceptions. *)
Lemma analyze_telescope_Ok_inv (telid : Z) (tr tr' : trace)
    (r : option MuonResult) :
  analyze_telescope muon_cuts_by_name event telid tr = (Ok r, tr') ->
  (r = None /\ tr' = tr
   /\ exists muon_cut,
        muon_cuts_by_name !! str (teldes (tel event telid)) = Some muon_cut
        /\ np.any (tel_clean_mask event telid muon_cut) = false)
  \/ (exists result,
        r = Some result
        /\ rejected_ring_record muon_cuts_by_name event telid result
        /\ length tr' = (length tr + 3)%nat).
Proof.
  rewrite analyze_telescope_unfold.
  destruct (muon_cuts_by_name !! str (teldes (tel event telid)))
    as [muon_cut|] eqn:Ecut; [|discriminate].
  destruct (np.any (tel_clean_mask event telid muon_cut)) eqn:Eany; cbn [negb].
  2: { intros [= <- <-]. left. repeat split. exists muon_cut. auto. }
  destruct (do_multi_ring_fit _ _ _ _ _ tr)
    as [[[ring_fit mask]|e] tr1] eqn:Efit; [|discriminate].
  destruct (is_ring_good _ _ _) eqn:Egood; [discriminate|].
  intros [= <- <-]. right. eexists. split; [reflexivity|]. split.
  - exists muon_cut, ring_fit, mask, tr, tr1. auto.
  - exact (do_multi_ring_fit_Ok_calls _ _ _ _ _ _ _ _ _ Efit).
Qed.

(** The records of a loop that returns, telescope by telescope. *)
Lemma analyze_loop_Ok_inv (tels : list Z) (output output' : list MuonResult)
    (tr tr' : trace) :
  analyze_loop muon_cuts_by_name event tels output tr = (Ok output', tr') ->
  exists ids records,
    output' = (output ++ records)%list
    /\ sublist ids tels
    /\ Forall2 (rejected_ring_record muon_cuts_by_name event) ids records
    /\ length tr' = (length tr + 3 * length records)%nat.
Proof.
  revert output tr. induction tels as [|telid tels IH]; intros output tr.
  - cbn. intros [= <- <-]. exists [], []. rewrite app_nil_r.
    repeat split; [constructor | constructor | cbn; lia].
  - cbn [analyze_loop]. unfold mbind, M_bind.
    destruct (analyze_telescope muon_cuts_by_name event telid tr)
      as [[r|e] tr1] eqn:Ebody; [|discriminate].
    intros Hloop. apply IH in Hloop as (ids & records & -> & Hsub & Hrec & Hlen).
    apply analyze_telescope_Ok_inv in Ebody
      as [(-> & -> & _)|(result & -> & Hresult & Hlen1)].
    + exists ids, records. repeat split; [|exact Hrec|exact Hlen].
      apply sublist_cons_r. left. exact Hsub.
    + exists (telid :: ids), (result :: records).
      rewrite <- app_assoc. repeat split.
      * apply sublist_skip. exact Hsub.
      * constructor; assumption.
      * rewrite Hlen, Hlen1. cbn [length]. lia.
Qed.

End event_loop_more.

Section event_outcomes.
Context `{!Collaborators} (event : Event).

(** Every record of an event that returns is the record of a ring that
    has failed [is_ring_good]: it belongs to a telescope of the event with
    a known type and a cleaning mask that is not empty, and it carries
    neither the intensity parameters nor the muon-found flag. *)
Theorem analyze_muon_event_returns_rejected_rings (tr tr' : trace)
    (output : list MuonResult) :
  analyze_muon_event event tr = (Ok output, tr') ->
  Forall (fun result =>
            MuonIntensityParams result = None
            /\ muon_found result = None
            /\ exists telid,
                 telid ∈ dl0_tels_with_data event
                 /\ rejected_ring_record
                      generate_muon_cuts_by_telescope_name event telid result)
         output.
Proof.
  unfold analyze_muon_event. intros Hrun.
  apply analyze_loop_Ok_inv in Hrun as (ids & records & -> & Hsub & Hrec & _).
  cbn [app]. apply Forall_forall. intros result Hin.
  apply list_elem_of_lookup in Hin as [i Hi].
  destruct (Forall2_lookup_r _ _ _ _ _ Hrec Hi) as (telid & Hid & Hresult).
  pose proof Hresult as (muon_cut & ring_fit & mask & t1 & t2
                         & _ & _ & _ & _ & ->).
  split; [reflexivity|]. split; [reflexivity|].
  exists telid. split; [|exact Hresult].
  eapply elem_of_sublist; [|exact Hsub].
  apply list_elem_of_lookup. eauto.
Qed.

(** The records of an event that returns come in the order of
    [tels_with_data]: their telescope ids are a sublist of it.  Each
    record has the observation id and the event id of the event and the
    mirror radius of its telescope. *)
Theorem analyze_muon_event_record_keys (tr tr' : trace)
    (output : list MuonResult) :
  analyze_muon_event event tr = (Ok output, tr') ->
  sublist ((fun result => MuonRingParameter.tel_id (MuonRingParams result))
             <$> output)
          (dl0_tels_with_data event)
  /\ Forall (fun result =>
               MuonRingParameter.obs_id (MuonRingParams result)
               = dl0_obs_id event
               /\ MuonRingParameter.event_id (MuonRingParams result)
                  = dl0_event_id event
               /\ res_mirror_radius result
                  = mirror_radius
                      (optics
                         (teldes
                            (tel event
                               (MuonRingParameter.tel_id
                                  (MuonRingParams result))))))
            output.
Proof.
  unfold analyze_muon_event. intros Hrun.
  apply analyze_loop_Ok_inv in Hrun as (ids & records & -> & Hsub & Hrec & _).
  cbn [app].
  assert (Hkeys : Forall2
            (fun telid result =>
               MuonRingParameter.tel_id (MuonRingParams result) = telid
               /\ MuonRingParameter.obs_id (MuonRingParams result)
                  = dl0_obs_id event
               /\ MuonRingParameter.event_id (MuonRingParams result)
                  = dl0_event_id event
               /\ res_mirror_radius result
                  = mirror_radius (optics (teldes (tel event telid))))
            ids records).
  { eapply Forall2_impl; [exact Hrec|].
    intros telid result (muon_cut & ring_fit & mask & t1 & t2
                         & _ & _ & _ & _ & ->).
    repeat split. }
  clear Hrec. split.
  - replace ((fun result => MuonRingParameter.tel_id (MuonRingParams result))
               <$> records) with ids; [exact Hsub|].
    clear Hsub. induction Hkeys as [|telid result ids records (<- & _) _ IH];
      [reflexivity|].
    cbn [fmap list_fmap]. f_equal. exact IH.
  - clear Hsub. induction Hkeys
      as [|telid result ids records (<- & Hobs & Hev & Hmr) _ IH];
      constructor; auto.
Qed.

(** An event that returns has called the ring fitter exactly three times
    for each record it returns, and for no other telescope. *)
Theorem analyze_muon_event_three_fits_per_record (tr tr' : trace)
    (output : list MuonResult) :
  analyze_muon_event event tr = (Ok output, tr') ->
  length tr' = (length tr + 3 * length output)%nat.
Proof.
  unfold analyze_muon_event. intros Hrun.
  apply analyze_loop_Ok_inv in Hrun as (ids & records & -> & _ & _ & Hlen).
  exact Hlen.
Qed.

(** The outcome of an event is made telescope by telescope: it is the
    exception of the first telescope whose loop body raises, and without
    such a telescope the records of the telescopes, each computed on its
    own, in the order of [tels_with_data]. *)
Theorem analyze_muon_event_by_telescope (tr : trace) :
  (analyze_muon_event event tr).1
  = match first_exception generate_muon_cuts_by_telescope_name event
            (dl0_tels_with_data event) with
    | Some e => Raise e
    | None =>
        Ok (omap (body_record generate_muon_cuts_by_telescope_name event)
                 (dl0_tels_with_data event))
    end.
Proof.
  unfold analyze_muon_event.
  change (omap (body_record generate_muon_cuts_by_telescope_name event)
               (dl0_tels_with_data event))
    with ([] ++ omap (body_record generate_muon_cuts_by_telescope_name event)
                     (dl0_tels_with_data event))%list.
  generalize (@nil MuonResult) as output. revert tr.
  induction (dl0_tels_with_data event) as [|telid tels IH]; intros tr output.
  - cbn. rewrite app_nil_r. reflexivity.
  - cbn [analyze_loop]. unfold mbind, M_bind.
    rewrite analyze_telescope_frame.
    unfold first_exception, body_exception, body_record in *.
    cbn [omap list_omap].
    destruct (analyze_telescope generate_muon_cuts_by_telescope_name
                event telid []) as [[r|e] calls]; cbn [fst snd].
    + rewrite IH. destruct (head _); [reflexivity|].
      destruct r as [result|]; [|reflexivity].
      rewrite <- app_assoc. reflexivity.
    + reflexivity.
Qed.

(** An event in which every telescope has a known type and an empty
    cleaning mask returns the empty list, without a call of the fitter;
    so does an event without telescopes. *)
Theorem analyze_muon_event_no_signal (tr : trace) :
  Forall (fun telid =>
            exists muon_cut,
              generate_muon_cuts_by_telescope_name
                !! str (teldes (tel event telid)) = Some muon_cut
              /\ np.any (tel_clean_mask event telid muon_cut) = false)
         (dl0_tels_with_data event) ->
  analyze_muon_event event tr = (Ok [], tr).
Proof.
  unfold analyze_muon_event. generalize (@nil MuonResult) as output.
  induction (dl0_tels_with_data event) as [|telid tels IH];
    intros output Hall.
  - reflexivity.
  - apply Forall_cons in Hall as [(muon_cut & Hcut & Hany) Hall].
    cbn [analyze_loop]. unfold mbind, M_bind.
    rewrite analyze_telescope_unfold, Hcut, Hany. cbn [negb].
    apply IH. exact Hall.
Qed.

End event_outcomes.

(** * The further properties on the sample inputs *)

(** Of three pixels on a line the first tightening keeps two, and the
    second fit refuses them: the refinement ends there, after two calls. *)
Lemma do_multi_ring_fit_exception_sample :
  do_multi_ring_fit sample.strict_centroid_fit
    sample.three_x sample.three_y sample.three_image sample.three_clean []
  = (Raise (FitError "fewer than three pixels"),
     [[true; true; true]; [true; true; false]]).
Proof.
  destruct (do_multi_ring_fit_exception
              sample.strict_centroid_fit sample.three_x sample.three_y
              sample.three_image sample.three_clean [])
    as (_ & Hsecond & _).
  etransitivity.
  - eapply Hsecond; vm_compute; reflexivity.
  - vm_compute. reflexivity.
Defined.

Lemma dist_mask_degenerate_radius_sample :
  np.any (np.mul_bool sample.six_clean
            (calc_dist_and_ring_dist sample.six_x sample.six_y
               (sample.centred_ring 0) parameter_default).2) = false.
Proof.
  apply (dist_mask_degenerate_radius
           sample.six_x sample.six_y (sample.centred_ring 0)
           parameter_default sample.six_clean).
  reflexivity.
Defined.

Lemma do_multi_ring_fit_converged_sample :
  exists mask,
    do_multi_ring_fit (sample.constant_fit (sample.centred_ring 5))
      sample.six_x sample.six_y sample.six_image sample.six_clean []
    = (Ok (sample.centred_ring 5, mask),
       [vec_to_list sample.six_clean; vec_to_list mask; vec_to_list mask]).
Proof.
  eexists.
  apply (do_multi_ring_fit_converged
           sample.six_x sample.six_y
           (sample.constant_fit (sample.centred_ring 5))
           sample.six_image sample.six_clean [] (sample.centred_ring 5));
    reflexivity.
Defined.

Lemma muon_cuts_lookup_names_sample :
  getitem generate_muon_cuts_by_telescope_name "LST_LST_Unknown" []
  = (Raise (KeyError "LST_LST_Unknown"), []).
Proof.
  destruct (muon_cuts_lookup_names "LST_LST_Unknown") as (_ & _ & Hkey).
  apply Hkey. vm_compute. intros Hin.
  repeat (apply elem_of_cons in Hin as [Hin|Hin]; [discriminate|]).
  apply elem_of_nil in Hin. exact Hin.
Defined.

Lemma analyze_muon_event_returns_rejected_rings_sample :
  exists result tr,
    @analyze_muon_event sample.collaborators (sample.small_event [1%Z]) []
    = (Ok [result], tr)
    /\ MuonIntensityParams result = None
    /\ muon_found result = None.
Proof.
  eexists. eexists.
  assert (Hrun : forall run,
            run = @analyze_muon_event sample.collaborators
                    (sample.small_event [1%Z]) [] ->
            @analyze_muon_event sample.collaborators
              (sample.small_event [1%Z]) [] = run)
    by (intros run ->; reflexivity).
  specialize (Hrun _ ltac:(vm_compute; reflexivity)).
  split; [exact Hrun|].
  pose proof (analyze_muon_event_returns_rejected_rings
                (H := sample.collaborators) (sample.small_event [1%Z])
                _ _ _ Hrun) as Hall.
  apply Forall_cons in Hall as [(Hint & Hfound & _) _].
  split; [exact Hint | exact Hfound].
Defined.

Lemma analyze_muon_event_record_keys_sample :
  exists result tr,
    @analyze_muon_event sample.collaborators
      (sample.small_event [3%Z; 1%Z]) []
    = (Ok [result], tr)
    /\ sublist [MuonRingParameter.tel_id (MuonRingParams result)] [3%Z; 1%Z]
    /\ MuonRingParameter.event_id (MuonRingParams result) = 7%Z.
Proof.
  eexists. eexists.
  assert (Hrun : forall run,
            run = @analyze_muon_event sample.collaborators
                    (sample.small_event [3%Z; 1%Z]) [] ->
            @analyze_muon_event sample.collaborators
              (sample.small_event [3%Z; 1%Z]) [] = run)
    by (intros run ->; reflexivity).
  specialize (Hrun _ ltac:(vm_compute; reflexivity)).
  split; [exact Hrun|].
  destruct (analyze_muon_event_record_keys
              (H := sample.collaborators) (sample.small_event [3%Z; 1%Z])
              _ _ _ Hrun)
    as (Hsub & Hkeys).
  split; [exact Hsub|].
  apply Forall_cons in Hkeys as [(_ & Hev & _) _]. exact Hev.
Defined.

Lemma analyze_muon_event_three_fits_per_record_sample :
  length (@analyze_muon_event sample.collaborators
            (sample.small_event [3%Z; 1%Z; 1%Z]) []).2 = 6%nat.
Proof.
  erewrite (analyze_muon_event_three_fits_per_record
              (H := sample.collaborators)
              (sample.small_event [3%Z; 1%Z; 1%Z]) []).
  2: { vm_compute. reflexivity. }
  reflexivity.
Defined.

Lemma analyze_muon_event_no_signal_sample :
  @analyze_muon_event sample.collaborators (sample.small_event [3%Z; 3%Z]) []
  = (Ok [], []).
Proof.
  apply (analyze_muon_event_no_signal
           (H := sample.collaborators) (sample.small_event [3%Z; 3%Z]) []).
  repeat constructor; exists sample.lst_cut; split; vm_compute; reflexivity.
Defined.
